(** * Shallow embedding of the PIR motion-sensor driver
      (src/Application/Sensor/pir.c) and proofs about it.

    The driver talks to three external collaborators: the HAL (GPIO pins,
    NVIC, busy-wait delays), the JSON/notecard messaging layer and the
    cooperative scheduler.  They are modelled as effects of a small
    state-and-log monad: every call to a collaborator appends an [event]
    to the log, and the parts of the world the driver can observe again
    (pin configuration, allocation outcomes, the scheduler's answer to
    [schedGetState]) live in the [world] record. *)

From Stdlib Require Import ZArith List String Ascii Bool Lia.
Import ListNotations.
Open Scope string_scope.
Open Scope list_scope.
Open Scope Z_scope.
#[local] Set Warnings "-register-all".

(** ** Machine integers *)

(** Wrap-around of a [uint32_t]. *)
Definition u32 (x : Z) : Z := x mod 2 ^ 32.

(** ** Fixed constants of pir.c *)

Definition STATE_MOTION_CHECK : Z := 0.
Definition REQUESTID_TEMPLATE : Z := 1.
Definition SENSORDATA_NOTEFILE : string := "*#motion.qo".

(** ** HAL data *)

Inductive pin_id := PIR_SERIAL_IN_Pin | PIR_DIRECT_LINK.

Inductive GPIO_PinState := GPIO_PIN_RESET | GPIO_PIN_SET.

Inductive gpio_mode := GPIO_MODE_INPUT | GPIO_MODE_OUTPUT_PP | GPIO_MODE_IT_RISING.
Inductive gpio_pull := GPIO_NOPULL | GPIO_PULLDOWN.
Inductive gpio_speed := GPIO_SPEED_FREQ_LOW | GPIO_SPEED_FREQ_HIGH.

(** [GPIO_InitTypeDef]; the pin is named by [pin_id] (port and pin mask
    together). *)
Record GPIO_InitTypeDef := {
  Pin : pin_id;
  Mode : gpio_mode;
  Pull : gpio_pull;
  Speed : gpio_speed }.

(** What the HAL keeps for one pin: its last [HAL_GPIO_Init] and its
    output data latch. *)
Record pin_state := mkPin {
  pin_init : option GPIO_InitTypeDef;
  pin_out : GPIO_PinState }.

(** The NVIC line [PIR_DIRECT_LINK_EXTI_IRQn]. *)
Record nvic_state := mkNvic {
  irq_priority : option (Z * Z);
  irq_enabled : bool }.

(** ** Messaging data (cJSON objects as used through note-c) *)

Inductive jval :=
| JNumber (n : Z)
| JString (s : string)
| JObject (fields : list (string * jval)).

(** A live [J *]: its allocation handle and its fields, in insertion
    order (cJSON appends). *)
Record J := mkJ { j_handle : nat; j_fields : list (string * jval) }.

(** ** Events: calls into the external collaborators *)

Inductive event :=
| EvGpioInit (p : pin_id) (init : GPIO_InitTypeDef)
| EvWritePin (p : pin_id) (v : GPIO_PinState)
| EvDelayUs (us : Z)
| EvNvicSetPriority (prio sub : Z)
| EvNvicEnableIRQ
| EvAlloc (h : nat)
| EvDelete (h : nat)
| EvSend (h : nat) (req : list (string * jval)) (expectResponse : bool)
| EvSchedSetState (sensorID st : Z) (msg : string)
| EvSchedSetCompletionState (sensorID from to : Z)
| EvSchedActivateNowFromISR (sensorID : Z) (now : bool) (st : Z)
| EvTrace (s : string)
| EvTraceLn (s : string)
| EvTraceValueLn (pre : string) (v : Z) (post : string)
| EvTraceNL.

(** ** The world *)

Record world := mkWorld {
  templateRegistered : bool;          (* static bool templateRegistered *)
  motionEvents : Z;                   (* static uint32_t motionEvents *)
  gpio_serial_in : pin_state;
  gpio_direct_link : pin_state;
  nvic_direct_link : nvic_state;
  schedState : Z;                     (* what schedGetState answers *)
  allocOutcomes : list bool;          (* outcome of the next allocations;
                                         an exhausted list means success *)
  nextHandle : nat }.

Definition set_templateRegistered (b : bool) (w : world) : world :=
  mkWorld b (motionEvents w) (gpio_serial_in w) (gpio_direct_link w)
    (nvic_direct_link w) (schedState w) (allocOutcomes w) (nextHandle w).

Definition set_motionEvents (n : Z) (w : world) : world :=
  mkWorld (templateRegistered w) n (gpio_serial_in w) (gpio_direct_link w)
    (nvic_direct_link w) (schedState w) (allocOutcomes w) (nextHandle w).

Definition set_pin (p : pin_id) (ps : pin_state) (w : world) : world :=
  match p with
  | PIR_SERIAL_IN_Pin =>
      mkWorld (templateRegistered w) (motionEvents w) ps (gpio_direct_link w)
        (nvic_direct_link w) (schedState w) (allocOutcomes w) (nextHandle w)
  | PIR_DIRECT_LINK =>
      mkWorld (templateRegistered w) (motionEvents w) (gpio_serial_in w) ps
        (nvic_direct_link w) (schedState w) (allocOutcomes w) (nextHandle w)
  end.

Definition get_pin (p : pin_id) (w : world) : pin_state :=
  match p with
  | PIR_SERIAL_IN_Pin => gpio_serial_in w
  | PIR_DIRECT_LINK => gpio_direct_link w
  end.

Definition set_nvic (n : nvic_state) (w : world) : world :=
  mkWorld (templateRegistered w) (motionEvents w) (gpio_serial_in w)
    (gpio_direct_link w) n (schedState w) (allocOutcomes w) (nextHandle w).

Definition set_alloc (outs : list bool) (h : nat) (w : world) : world :=
  mkWorld (templateRegistered w) (motionEvents w) (gpio_serial_in w)
    (gpio_direct_link w) (nvic_direct_link w) (schedState w) outs h.

(** ** The state-and-log monad *)

Definition M (A : Type) : Type := world -> A * world * list event.

Definition ret {A} (a : A) : M A := fun w => (a, w, []).

Definition bind {A B} (m : M A) (k : A -> M B) : M B :=
  fun w => let '(a, w1, e1) := m w in
           let '(b, w2, e2) := k a w1 in (b, w2, e1 ++ e2).

Notation "x <- m ;; k" := (bind m (fun x => k))
  (at level 61, m at next level, right associativity).
Notation "m ;; k" := (bind m (fun _ => k))
  (at level 61, right associativity).

Definition emit (e : event) : M unit := fun w => (tt, w, [e]).
Definition gets {A} (f : world -> A) : M A := fun w => (f w, w, []).
Definition modify (f : world -> world) : M unit := fun w => (tt, f w, []).

(** Result, final world and emitted events of a run. *)
Definition result {A} (m : M A) (w : world) : A := fst (fst (m w)).
Definition final {A} (m : M A) (w : world) : world := snd (fst (m w)).
Definition events {A} (m : M A) (w : world) : list event := snd (m w).

(** ** HAL primitives *)

Definition HAL_GPIO_Init (init : GPIO_InitTypeDef) : M unit :=
  modify (fun w => set_pin (Pin init)
                     (mkPin (Some init) (pin_out (get_pin (Pin init) w))) w);;
  emit (EvGpioInit (Pin init) init).

Definition HAL_GPIO_WritePin (p : pin_id) (v : GPIO_PinState) : M unit :=
  modify (fun w => set_pin p (mkPin (pin_init (get_pin p w)) v) w);;
  emit (EvWritePin p v).

Definition HAL_DelayUs (us : Z) : M unit := emit (EvDelayUs us).

Definition HAL_NVIC_SetPriority (prio sub : Z) : M unit :=
  modify (fun w => set_nvic (mkNvic (Some (prio, sub))
                               (irq_enabled (nvic_direct_link w))) w);;
  emit (EvNvicSetPriority prio sub).

Definition HAL_NVIC_EnableIRQ : M unit :=
  modify (fun w => set_nvic (mkNvic (irq_priority (nvic_direct_link w)) true) w);;
  emit EvNvicEnableIRQ.

(** ** Tracing *)

Definition trace (s : string) : M unit := emit (EvTrace s).
Definition traceLn (s : string) : M unit := emit (EvTraceLn s).
Definition traceValueLn (pre : string) (v : Z) (post : string) : M unit :=
  emit (EvTraceValueLn pre v post).
Definition traceNL : M unit := emit EvTraceNL.

(** ** The configuration register (pirInit, lines 52-140) *)

Definition configurationRegister : Z :=
  let r := 0 in
  let threshold := 24 in
  let r := Z.lor r (u32 (Z.shiftl (Z.land threshold 0xff) 17)) in
  let blindTime := 2 in
  let r := Z.lor r (u32 (Z.shiftl (Z.land blindTime 0x0f) 13)) in
  let pulseCounter := 2 in
  let r := Z.lor r (u32 (Z.shiftl (Z.land pulseCounter 0x03) 11)) in
  let windowTime := 3 in
  let r := Z.lor r (u32 (Z.shiftl (Z.land windowTime 0x03) 9)) in
  let operationModes := 2 in
  let r := Z.lor r (u32 (Z.shiftl (Z.land operationModes 0x03) 7)) in
  let signalSource := 0 in
  let r := Z.lor r (u32 (Z.shiftl (Z.land signalSource 0x03) 5)) in
  let reserved1 := 2 in
  let r := Z.lor r (u32 (Z.shiftl (Z.land reserved1 0x03) 3)) in
  let hpfCutoff := 0 in
  let r := Z.lor r (u32 (Z.shiftl (Z.land hpfCutoff 0x01) 2)) in
  let reserved2 := 0 in
  let r := Z.lor r (u32 (Z.shiftl (Z.land reserved2 0x01) 1)) in
  let pulseDetectionMode := 0 in
  let r := Z.lor r (u32 (Z.shiftl (Z.land pulseDetectionMode 0x01) 0)) in
  r.

(** ** Sending the register (pirInit, lines 142-154) *)

(** One iteration of [for (int i=24; i>=0; --i)]. *)
Definition sendBit (cfg i : Z) : M unit :=
  HAL_GPIO_WritePin PIR_SERIAL_IN_Pin GPIO_PIN_RESET;;
  HAL_DelayUs 5;;
  HAL_GPIO_WritePin PIR_SERIAL_IN_Pin GPIO_PIN_SET;;
  HAL_DelayUs 1;;
  HAL_GPIO_WritePin PIR_SERIAL_IN_Pin
    (if negb (Z.land cfg (Z.shiftl 1 i) =? 0) then GPIO_PIN_SET else GPIO_PIN_RESET);;
  HAL_DelayUs 100.

(** [sendLoop cfg n] runs the iterations [i = n-1, ..., 0]. *)
Fixpoint sendLoop (cfg : Z) (n : nat) : M unit :=
  match n with
  | O => ret tt
  | S n' => sendBit cfg (Z.of_nat n');; sendLoop cfg n'
  end.

Definition sendConfiguration (cfg : Z) : M unit :=
  HAL_DelayUs 750;;
  sendLoop cfg 25;;
  HAL_GPIO_WritePin PIR_SERIAL_IN_Pin GPIO_PIN_RESET;;
  HAL_DelayUs 750.

(** ** Messaging primitives (note-c) *)

(** An allocation through the messaging layer: consumes the next outcome;
    on success returns a fresh handle. *)
Definition J_alloc (fields : list (string * jval)) : M (option J) :=
  fun w =>
    match allocOutcomes w with
    | false :: rest => (None, set_alloc rest (nextHandle w) w, [])
    | outs =>
        let h := nextHandle w in
        (Some (mkJ h fields), set_alloc (tl outs) (S h) w, [EvAlloc h])
    end.

Definition NoteNewRequest (name : string) : M (option J) :=
  J_alloc [("req", JString name)].

Definition JCreateObject : M (option J) := J_alloc [].

Definition JDelete (j : J) : M unit := emit (EvDelete (j_handle j)).

Definition JAddNumberToObject (j : J) (k : string) (n : Z) : J :=
  mkJ (j_handle j) (j_fields j ++ [(k, JNumber n)]).

Definition JAddStringToObject (j : J) (k : string) (s : string) : J :=
  mkJ (j_handle j) (j_fields j ++ [(k, JString s)]).

Definition JAddItemToObject (j : J) (k : string) (item : J) : J :=
  mkJ (j_handle j) (j_fields j ++ [(k, JObject (j_fields item))]).

Definition noteSendToGatewayAsync (req : J) (expectResponse : bool) : M unit :=
  emit (EvSend (j_handle req) (j_fields req) expectResponse).

(** First field with key [k] (cJSON's GetObjectItem). *)
Fixpoint j_lookup (k : string) (fs : list (string * jval)) : option jval :=
  match fs with
  | [] => None
  | (k', v) :: r => if String.eqb k k' then Some v else j_lookup k r
  end.

(** [JGetString]: the string field, or "" when absent or not a string. *)
Definition JGetString (r : list (string * jval)) (k : string) : string :=
  match j_lookup k r with Some (JString s) => s | _ => EmptyString end.

(** [JGetInt]: the number field, or 0 when absent or not a number. *)
Definition JGetInt (r : list (string * jval)) (k : string) : Z :=
  match j_lookup k r with Some (JNumber n) => n | _ => 0 end.

(** [err[0] != '\0'] on a C string. *)
Definition c_str_nonempty (s : string) : bool :=
  match s with
  | EmptyString => false
  | String c _ => negb (Ascii.eqb c Ascii.zero)
  end.

(** ** Scheduler primitives *)

Definition schedGetState (sensorID : Z) : M Z := gets schedState.
Definition schedSetState (sensorID st : Z) (msg : string) : M unit :=
  emit (EvSchedSetState sensorID st msg).
Definition schedSetCompletionState (sensorID from to : Z) : M unit :=
  emit (EvSchedSetCompletionState sensorID from to).
Definition schedActivateNowFromISR (sensorID : Z) (now : bool) (st : Z) : M unit :=
  emit (EvSchedActivateNowFromISR sensorID now st).

(** ** The driver *)

Section Pir.

(** Constants of sensor.h, main.h and note-c that pir.c uses. *)
Variables STATE_ACTIVATED STATE_DEACTIVATED : Z.
Variable PIR_DIRECT_LINK_Pin : Z.
Variable PIR_DIRECT_LINK_IT_PRIORITY : Z.
Variable TINT32 : Z.

Definition resetInterrupt : M unit :=
  HAL_GPIO_Init {| Pin := PIR_DIRECT_LINK; Mode := GPIO_MODE_OUTPUT_PP;
                   Pull := GPIO_NOPULL; Speed := GPIO_SPEED_FREQ_LOW |};;
  HAL_GPIO_WritePin PIR_DIRECT_LINK GPIO_PIN_RESET;;
  HAL_DelayUs 250;;
  HAL_GPIO_Init {| Pin := PIR_DIRECT_LINK; Mode := GPIO_MODE_IT_RISING;
                   Pull := GPIO_PULLDOWN; Speed := GPIO_SPEED_FREQ_HIGH |};;
  HAL_NVIC_SetPriority PIR_DIRECT_LINK_IT_PRIORITY 0;;
  HAL_NVIC_EnableIRQ.

Definition pirInit (sensorID : Z) : M bool :=
  HAL_GPIO_Init {| Pin := PIR_SERIAL_IN_Pin; Mode := GPIO_MODE_OUTPUT_PP;
                   Pull := GPIO_NOPULL; Speed := GPIO_SPEED_FREQ_LOW |};;
  HAL_GPIO_WritePin PIR_SERIAL_IN_Pin GPIO_PIN_RESET;;
  HAL_GPIO_Init {| Pin := PIR_DIRECT_LINK; Mode := GPIO_MODE_INPUT;
                   Pull := GPIO_PULLDOWN; Speed := GPIO_SPEED_FREQ_HIGH |};;
  HAL_NVIC_SetPriority PIR_DIRECT_LINK_IT_PRIORITY 0;;
  HAL_NVIC_EnableIRQ;;
  sendConfiguration configurationRegister;;
  resetInterrupt;;
  ret true.

Definition registerNotefileTemplate : M bool :=
  oreq <- NoteNewRequest "note.template";;
  match oreq with
  | None => ret false
  | Some req =>
      obody <- JCreateObject;;
      match obody with
      | None => JDelete req;; ret false
      | Some body =>
          let req := JAddNumberToObject req "id" REQUESTID_TEMPLATE in
          let req := JAddStringToObject req "file" SENSORDATA_NOTEFILE in
          let body := JAddNumberToObject body "count" TINT32 in
          let req := JAddItemToObject req "body" body in
          noteSendToGatewayAsync req true;;
          ret true
      end
  end.

(** [addNote] with the preemption point between the read of
    [motionEvents] and its reset made explicit: [irq] is what an
    interrupt runs there ([ret tt] when none fires). *)
Definition addNote_preempted (irq : M unit) : M unit :=
  oreq <- NoteNewRequest "note.add";;
  match oreq with
  | None => ret tt
  | Some req =>
      obody <- JCreateObject;;
      match obody with
      | None => JDelete req;; ret tt
      | Some body =>
          let req := JAddStringToObject req "file" SENSORDATA_NOTEFILE in
          count <- gets motionEvents;;
          irq;;
          modify (set_motionEvents 0);;
          let body := JAddNumberToObject body "count" count in
          let req := JAddItemToObject req "body" body in
          noteSendToGatewayAsync req false
      end
  end.

Definition addNote : M unit := addNote_preempted (ret tt).

Definition pirPoll (sensorID state : Z) : M unit :=
  let motion_check :=
    n <- gets motionEvents;;
    if n =? 0 then schedSetState sensorID STATE_DEACTIVATED "pir: completed"
    else
      traceValueLn "pir: " n " motion events sensed";;
      addNote;;
      schedSetCompletionState sensorID STATE_MOTION_CHECK STATE_MOTION_CHECK;;
      traceLn "pir: note queued" in
  if state =? STATE_ACTIVATED then
    tr <- gets templateRegistered;;
    if negb tr then
      _ <- registerNotefileTemplate;;
      schedSetCompletionState sensorID STATE_ACTIVATED STATE_MOTION_CHECK;;
      traceLn "pir: template registration request"
    else motion_check
  else if state =? STATE_MOTION_CHECK then motion_check
  else ret tt.

Definition pirResponse (sensorID : Z) (rsp : option (list (string * jval))) : M unit :=
  match rsp with
  | None => traceLn "pir: response timeout"
  | Some r =>
      let err := JGetString r "err" in
      if c_str_nonempty err then
        trace "sensor error response: ";; trace err;; traceNL
      else if JGetInt r "id" =? REQUESTID_TEMPLATE then
        modify (set_templateRegistered true);;
        traceLn "pir: SUCCESSFUL template registration"
      else ret tt
  end.

Definition pirISR (sensorID pins : Z) : M unit :=
  if negb (Z.land pins PIR_DIRECT_LINK_Pin =? 0) then
    modify (fun w => set_motionEvents (u32 (motionEvents w + 1)) w);;
    resetInterrupt;;
    st <- schedGetState sensorID;;
    if st =? STATE_DEACTIVATED then
      schedActivateNowFromISR sensorID true STATE_MOTION_CHECK
    else ret tt
  else ret tt.

End Pir.

(** ** Observations used to state the claims *)

(** The documented layout of the configuration register:
    (name, value, width, offset) of every field, from the comments of
    pirInit. *)
Definition documented_fields : list (string * Z * Z * Z) :=
  [("threshold", 24, 8, 17); ("blindTime", 2, 4, 13);
   ("pulseCounter", 2, 2, 11); ("windowTime", 3, 2, 9);
   ("operationModes", 2, 2, 7); ("signalSource", 0, 2, 5);
   ("reserved1", 2, 2, 3); ("hpfCutoff", 0, 1, 2);
   ("reserved2", 0, 1, 1); ("pulseDetectionMode", 0, 1, 0)].

(** Bits [off + width - 1 : off] of [cfg]. *)
Definition field_at (cfg off width : Z) : Z :=
  Z.land (Z.shiftr cfg off) (Z.ones width).

(** The bits a field occupies. *)
Definition field_mask (f : string * Z * Z * Z) : Z :=
  let '(_, _, width, off) := f in Z.shiftl (Z.ones width) off.

(** Pin level of the serial line during every delay, from a log and the
    level the line has when the log starts. *)
Fixpoint serial_pairs (v : GPIO_PinState) (es : list event)
  : list (GPIO_PinState * Z) :=
  match es with
  | [] => []
  | EvWritePin PIR_SERIAL_IN_Pin v' :: r => serial_pairs v' r
  | EvDelayUs d :: r => (v, d) :: serial_pairs v r
  | _ :: r => serial_pairs v r
  end.

(** The transmission as the spec words it: 750us low, then for bit 24
    down to bit 0 low 5us, high 1us, the bit's value for 100us; then
    750us low. *)
Definition bit_level (cfg i : Z) : GPIO_PinState :=
  if Z.testbit cfg i then GPIO_PIN_SET else GPIO_PIN_RESET.

Definition documented_transmission (cfg : Z) : list (GPIO_PinState * Z) :=
  (GPIO_PIN_RESET, 750)
    :: flat_map (fun i => [(GPIO_PIN_RESET, 5); (GPIO_PIN_SET, 1);
                           (bit_level cfg i, 100)])
                (map Z.of_nat (rev (seq 0 25)))
    ++ [(GPIO_PIN_RESET, 750)].

(** [n] calls in a row. *)
Fixpoint repeatM (n : nat) (m : M unit) : M unit :=
  match n with
  | O => ret tt
  | S k => m;; repeatM k m
  end.

(** Every field, masked to its width and shifted to its offset. *)
Definition placed_field (f : string * Z * Z * Z) : Z :=
  let '(_, v, width, off) := f in Z.shiftl (Z.land v (Z.ones width)) off.

(** The init structures resetInterrupt passes to [HAL_GPIO_Init]. *)
Definition direct_link_output_init : GPIO_InitTypeDef :=
  {| Pin := PIR_DIRECT_LINK; Mode := GPIO_MODE_OUTPUT_PP;
     Pull := GPIO_NOPULL; Speed := GPIO_SPEED_FREQ_LOW |}.

Definition direct_link_irq_init : GPIO_InitTypeDef :=
  {| Pin := PIR_DIRECT_LINK; Mode := GPIO_MODE_IT_RISING;
     Pull := GPIO_PULLDOWN; Speed := GPIO_SPEED_FREQ_HIGH |}.

(** A start world for concrete runs: nothing configured, five pending
    motion events, scheduler reporting state -3. *)
Definition w_example : world :=
  mkWorld false 5 (mkPin None GPIO_PIN_SET) (mkPin None GPIO_PIN_SET)
    (mkNvic None false) (-3) [] 0.

(** Both allocations of a request-building function succeed: the first
    two outcomes (an exhausted list meaning success) are not [false]. *)
Definition first_two_ok (outs : list bool) : bool :=
  match outs with
  | false :: _ => false
  | _ :: false :: _ => false
  | _ => true
  end.

Definition is_send (e : event) : bool :=
  match e with EvSend _ _ _ => true | _ => false end.

(** The messages handed to [noteSendToGatewayAsync]. *)
Definition sends (es : list event) : list event := filter is_send es.

(** The [count] of every report ([note.add] request) sent. *)
Fixpoint sent_counts (es : list event) : list Z :=
  match es with
  | [] => []
  | EvSend _ req _ :: r =>
      match j_lookup "req" req, j_lookup "body" req with
      | Some (JString "note.add"), Some (JObject b) =>
          match j_lookup "count" b with
          | Some (JNumber n) => n :: sent_counts r
          | _ => sent_counts r
          end
      | _, _ => sent_counts r
      end
  | _ :: r => sent_counts r
  end.

(** Calls the scheduler or the trace log sees. *)
Definition is_sched_or_trace (e : event) : bool :=
  match e with
  | EvSchedSetState _ _ _ | EvSchedSetCompletionState _ _ _
  | EvSchedActivateNowFromISR _ _ _
  | EvTrace _ | EvTraceLn _ | EvTraceValueLn _ _ _ | EvTraceNL => true
  | _ => false
  end.

(** A response that pirResponse takes as the template acknowledgment: not
    a timeout, no error string, correlation ID [REQUESTID_TEMPLATE]. *)
Definition response_registers (rsp : option (list (string * jval))) : bool :=
  match rsp with
  | None => false
  | Some r => negb (c_str_nonempty (JGetString r "err"))
              && (JGetInt r "id" =? REQUESTID_TEMPLATE)
  end.

(** The template flag after each response of a sequence. *)
Fixpoint flag_history (sensorID : Z) (rs : list (option (list (string * jval))))
  (w : world) : list bool :=
  match rs with
  | [] => []
  | r :: rs' =>
      let w' := final (pirResponse sensorID r) w in
      templateRegistered w' :: flag_history sensorID rs' w'
  end.

(** Number of false-to-true and of true-to-false changes along a history. *)
Fixpoint rises (b : bool) (l : list bool) : nat :=
  match l with
  | [] => O
  | b' :: l' => ((if negb b && b' then 1 else 0) + rises b' l')%nat
  end.

Fixpoint falls (b : bool) (l : list bool) : nat :=
  match l with
  | [] => O
  | b' :: l' => ((if b && negb b' then 1 else 0) + falls b' l')%nat
  end.

(** ** Sequences of driver entry points *)

(** One call into the driver by its environment: the one-time init, the
    interrupt handler, a scheduler poll, or a gateway response. *)
Inductive driver_op :=
| OpInit
| OpISR (pins : Z)
| OpPoll (state : Z)
| OpResponse (rsp : option (list (string * jval))).

Section Ops.

Variables STATE_ACTIVATED STATE_DEACTIVATED : Z.
Variables PIR_DIRECT_LINK_Pin PIR_DIRECT_LINK_IT_PRIORITY TINT32 : Z.
Variable sensorID : Z.

Definition run_op (op : driver_op) : M unit :=
  match op with
  | OpInit => _ <- pirInit PIR_DIRECT_LINK_IT_PRIORITY sensorID;; ret tt
  | OpISR pins =>
      pirISR STATE_DEACTIVATED PIR_DIRECT_LINK_Pin PIR_DIRECT_LINK_IT_PRIORITY
        sensorID pins
  | OpPoll st => pirPoll STATE_ACTIVATED STATE_DEACTIVATED TINT32 sensorID st
  | OpResponse rsp => pirResponse sensorID rsp
  end.

Fixpoint run_ops (ops : list driver_op) : M unit :=
  match ops with
  | [] => ret tt
  | op :: rest => run_op op;; run_ops rest
  end.

(** Interrupts that carry the wake-line bit. *)
Definition isr_counted (op : driver_op) : Z :=
  match op with
  | OpISR pins => if Z.land pins PIR_DIRECT_LINK_Pin =? 0 then 0 else 1
  | _ => 0
  end.

Fixpoint isr_count (ops : list driver_op) : Z :=
  match ops with
  | [] => 0
  | op :: rest => isr_counted op + isr_count rest
  end.

End Ops.

(** Sum of the counts of all reports in a log. *)
Definition reported (es : list event) : Z := fold_right Z.add 0 (sent_counts es).

(** The two kinds of message the driver sends: the template registration
    (expects a response, carries [REQUESTID_TEMPLATE]) and the report
    (no response expected, no ID); both address [SENSORDATA_NOTEFILE]. *)
Definition send_well_formed (e : event) : Prop :=
  match e with
  | EvSend _ req b =>
      JGetString req "file" = SENSORDATA_NOTEFILE
      /\ ((JGetString req "req" = "note.template" /\ b = true
           /\ JGetInt req "id" = REQUESTID_TEMPLATE)
          \/ (JGetString req "req" = "note.add" /\ b = false
              /\ j_lookup "id" req = None))
  | _ => True
  end.

(** The sensor's view of the serial line: the level of every 100us hold
    (the sampling window of a bit frame), in order. *)
Fixpoint sampled_bits (ps : list (GPIO_PinState * Z)) : list bool :=
  match ps with
  | [] => []
  | (v, d) :: r =>
      if d =? 100
      then match v with GPIO_PIN_SET => true | GPIO_PIN_RESET => false end
           :: sampled_bits r
      else sampled_bits r
  end.

(** Shifting bits in, most significant first. *)
Definition shift_in (bs : list bool) : Z :=
  fold_left (fun acc b => 2 * acc + Z.b2z b) bs 0.

(** Total busy-wait time of a log, in microseconds. *)
Definition busy_wait (es : list event) : Z :=
  fold_right (fun e acc => match e with EvDelayUs d => d + acc | _ => acc end) 0 es.

(** Gateway responses among the driver's entry points. *)
Definition is_response (op : driver_op) : bool :=
  match op with OpResponse _ => true | _ => false end.

Definition is_alloc (e : event) : bool :=
  match e with EvAlloc _ => true | _ => false end.

Definition is_delete (e : event) : bool :=
  match e with EvDelete _ => true | _ => false end.

(** Objects taken from, and given back to, the messaging layer: every
    allocation, every [JDelete], every request handed over. *)
Definition allocs (es : list event) : nat := List.length (filter is_alloc es).
Definition deletes (es : list event) : nat := List.length (filter is_delete es).
Definition sent (es : list event) : nat := List.length (sends es).

(** Sample call sequences: power-up, three interrupts (one not on the
    wake line), registration and its acknowledgment, reports and a final
    idle poll; and one with no gateway response. *)
Definition ops_example : list driver_op :=
  [OpInit; OpISR 64; OpISR 0; OpISR 64; OpPoll (-2);
   OpResponse (Some [("id", JNumber 1)]); OpPoll (-2); OpISR 64;
   OpPoll STATE_MOTION_CHECK; OpPoll STATE_MOTION_CHECK].

Definition ops_no_response : list driver_op :=
  [OpInit; OpISR 64; OpPoll (-2); OpPoll STATE_MOTION_CHECK; OpISR 64].

(** Unfold the monad and every primitive, so that a run on a world with
    variables reduces down to the branches the code takes. *)
Ltac unfold_run :=
  unfold events, final, result, bind, ret, emit, gets, modify,
    HAL_GPIO_Init, HAL_GPIO_WritePin, HAL_DelayUs, HAL_NVIC_SetPriority,
    HAL_NVIC_EnableIRQ, trace, traceLn, traceValueLn, traceNL,
    NoteNewRequest, JCreateObject, J_alloc, JDelete, noteSendToGatewayAsync,
    schedGetState, schedSetState, schedSetCompletionState,
    schedActivateNowFromISR in *.

(** ** General lemmas about the monad *)

Lemma events_bind {A B} (m : M A) (k : A -> M B) w :
  events (bind m k) w = events m w ++ events (k (result m w)) (final m w).
Proof.
  unfold events, result, final, bind.
  destruct (m w) as [[a w1] e1]; simpl.
  destruct (k a w1) as [[b w2] e2]; reflexivity.
Qed.

Lemma final_bind {A B} (m : M A) (k : A -> M B) w :
  final (bind m k) w = final (k (result m w)) (final m w).
Proof.
  unfold result, final, bind.
  destruct (m w) as [[a w1] e1]; simpl.
  destruct (k a w1) as [[b w2] e2]; reflexivity.
Qed.

Lemma result_bind {A B} (m : M A) (k : A -> M B) w :
  result (bind m k) w = result (k (result m w)) (final m w).
Proof.
  unfold result, final, bind.
  destruct (m w) as [[a w1] e1]; simpl.
  destruct (k a w1) as [[b w2] e2]; reflexivity.
Qed.

(** ** Bit-level lemmas *)

Lemma land_shiftl_one_testbit (a i : Z) :
  negb (Z.land a (Z.shiftl 1 i) =? 0) = Z.testbit a i.
Proof.
  destruct (Z.ltb_spec i 0) as [Hi|Hi].
  - rewrite Z.testbit_neg_r by lia.
    assert (Z.shiftl 1 i = 0) as ->.
    { replace i with (- (- i)) by lia.
      rewrite Z.shiftl_opp_r, Z.shiftr_div_pow2 by lia.
      apply Z.div_small. split; [lia|].
      apply Z.pow_gt_1; lia. }
    rewrite Z.land_0_r. reflexivity.
  - rewrite Z.shiftl_1_l.
    destruct (Z.testbit a i) eqn:Hb.
    + destruct (Z.eqb_spec (Z.land a (2 ^ i)) 0) as [H0|H0]; [|reflexivity].
      exfalso.
      assert (Z.testbit (Z.land a (2 ^ i)) i = true) as Ht.
      { rewrite Z.land_spec, Hb, Z.pow2_bits_true by lia. reflexivity. }
      rewrite H0, Z.bits_0 in Ht. discriminate.
    + assert (Z.land a (2 ^ i) = 0) as ->; [|reflexivity].
      apply Z.bits_inj'. intros n Hn.
      rewrite Z.land_spec, Z.bits_0, Z.pow2_bits_eqb by lia.
      destruct (Z.eqb_spec i n) as [->|_]; [rewrite Hb|]; apply andb_false_r || reflexivity.
Qed.

(** ** Transmission lemmas *)

Definition sendBit_events (cfg i : Z) : list event :=
  [EvWritePin PIR_SERIAL_IN_Pin GPIO_PIN_RESET; EvDelayUs 5;
   EvWritePin PIR_SERIAL_IN_Pin GPIO_PIN_SET; EvDelayUs 1;
   EvWritePin PIR_SERIAL_IN_Pin
     (if negb (Z.land cfg (Z.shiftl 1 i) =? 0) then GPIO_PIN_SET else GPIO_PIN_RESET);
   EvDelayUs 100].

Lemma sendLoop_events (cfg : Z) (n : nat) (w : world) :
  events (sendLoop cfg n) w
  = flat_map (sendBit_events cfg) (map Z.of_nat (rev (seq 0 n))).
Proof.
  revert w. induction n as [|n IH]; intros w; [reflexivity|].
  cbn [sendLoop]. rewrite events_bind, IH.
  rewrite seq_S, rev_app_distr. reflexivity.
Qed.

Lemma serial_pairs_bits (cfg : Z) (l : list Z) (v x : GPIO_PinState) rest :
  serial_pairs v (flat_map (sendBit_events cfg) l
                    ++ EvWritePin PIR_SERIAL_IN_Pin x :: rest)
  = flat_map (fun i => [(GPIO_PIN_RESET, 5); (GPIO_PIN_SET, 1);
                        (bit_level cfg i, 100)]) l
    ++ serial_pairs x rest.
Proof.
  revert v. induction l as [|i l IH]; intros v; [reflexivity|].
  cbn [flat_map]. rewrite <- app_assoc. cbn.
  rewrite IH. unfold bit_level. rewrite land_shiftl_one_testbit.
  reflexivity.
Qed.

Lemma resetInterrupt_twice (prio : Z) (w : world) :
  final (resetInterrupt prio) (final (resetInterrupt prio) w)
  = final (resetInterrupt prio) w.
Proof. reflexivity. Qed.

Lemma resetInterrupt_motionEvents (prio : Z) (w : world) :
  motionEvents (final (resetInterrupt prio) w) = motionEvents w.
Proof. reflexivity. Qed.

Lemma pirResponse_final (sensorID : Z) rsp (w : world) :
  final (pirResponse sensorID rsp) w
  = if response_registers rsp then set_templateRegistered true w else w.
Proof.
  destruct rsp as [r|]; [|reflexivity].
  unfold pirResponse, response_registers.
  destruct (c_str_nonempty (JGetString r "err")); [reflexivity|].
  cbn [negb andb]. destruct (JGetInt r "id" =? REQUESTID_TEMPLATE); reflexivity.
Qed.

(** ** Claims *)

(** C1: the register assembled by pirInit from its fixed constants holds
    every documented field, masked to its width, at its documented
    offset; it is exactly the OR of these placed fields; the fields
    occupy pairwise disjoint bits; and the value fits in 25 bits. *)
Theorem C1_configurationRegister_layout :
  Forall (fun '(_, v, width, off) =>
            field_at configurationRegister off width = Z.land v (Z.ones width))
         documented_fields
  /\ configurationRegister = fold_right Z.lor 0 (map placed_field documented_fields)
  /\ ForallOrdPairs (fun f g => Z.land (field_mask f) (field_mask g) = 0)
                    documented_fields
  /\ 0 <= configurationRegister < 2 ^ 25.
Proof.
  split; [repeat constructor|].
  split; [vm_compute; reflexivity|].
  split; [repeat constructor|].
  split; vm_compute; [intro H; discriminate H | reflexivity].
Qed.

(** C2: the serial line levels and hold times of the transmission in
    pirInit: for any register value, starting from the low line pirInit
    sets up, 750us low, then bits 24..0 each as 5us low, 1us high and
    100us at the bit's value, then 750us low.  In pirInit itself, this is
    the whole serial-line timing apart from the 250us that the following
    resetInterrupt spends (with the serial line still low). *)
Theorem C2_transmission_sequence :
  (forall (cfg : Z) (w : world),
      serial_pairs GPIO_PIN_RESET (events (sendConfiguration cfg) w)
      = documented_transmission cfg)
  /\ (forall (prio sensorID : Z) (w : world) (v : GPIO_PinState),
      serial_pairs v (events (pirInit prio sensorID) w)
      = documented_transmission configurationRegister ++ [(GPIO_PIN_RESET, 250)]).
Proof.
  split.
  - intros cfg w. unfold sendConfiguration.
    rewrite !events_bind, sendLoop_events.
    change (events (HAL_DelayUs 750) w) with [EvDelayUs 750].
    cbn [app serial_pairs].
    match goal with
    | |- context [events (HAL_GPIO_WritePin PIR_SERIAL_IN_Pin GPIO_PIN_RESET) ?w'] =>
        change (events (HAL_GPIO_WritePin PIR_SERIAL_IN_Pin GPIO_PIN_RESET) w')
          with [EvWritePin PIR_SERIAL_IN_Pin GPIO_PIN_RESET]
    end.
    match goal with
    | |- context [events (HAL_DelayUs 750) ?w'] =>
        change (events (HAL_DelayUs 750) w') with [EvDelayUs 750]
    end.
    cbn [app].
    rewrite serial_pairs_bits. reflexivity.
  - intros prio sensorID w v. vm_compute. reflexivity.
Qed.

(** C8: resetInterrupt is idempotent: n >= 1 calls in a row leave the
    world exactly as one call does, with the direct-link pin a
    pulled-down rising-edge interrupt input at the fixed priority, the
    interrupt enabled; every call first drives the pin low for 250us
    (at least the required 35us). *)
Theorem C8_resetInterrupt_idempotent (prio : Z) (n : nat) (w : world) :
  (1 <= n)%nat ->
  final (repeatM n (resetInterrupt prio)) w = final (resetInterrupt prio) w
  /\ pin_init (gpio_direct_link (final (resetInterrupt prio) w))
     = Some direct_link_irq_init
  /\ nvic_direct_link (final (resetInterrupt prio) w) = mkNvic (Some (prio, 0)) true
  /\ events (repeatM n (resetInterrupt prio)) w
     = List.concat (List.repeat (events (resetInterrupt prio) w) n)
  /\ events (resetInterrupt prio) w
     = [EvGpioInit PIR_DIRECT_LINK direct_link_output_init;
        EvWritePin PIR_DIRECT_LINK GPIO_PIN_RESET; EvDelayUs 250;
        EvGpioInit PIR_DIRECT_LINK direct_link_irq_init;
        EvNvicSetPriority prio 0; EvNvicEnableIRQ]
  /\ 35 <= 250.
Proof.
  intros Hn.
  assert (Hfin : forall k w', final (repeatM (S k) (resetInterrupt prio)) w'
                              = final (resetInterrupt prio) w').
  { induction k as [|k IH]; intros w'.
    - cbn [repeatM]. rewrite final_bind. reflexivity.
    - change (repeatM (S (S k)) (resetInterrupt prio))
        with (resetInterrupt prio;; repeatM (S k) (resetInterrupt prio)).
      rewrite final_bind, IH. apply resetInterrupt_twice. }
  assert (Hev : forall k w', events (repeatM k (resetInterrupt prio)) w'
                             = List.concat (List.repeat (events (resetInterrupt prio) w) k)).
  { induction k as [|k IH]; intros w'; [reflexivity|].
    cbn [repeatM List.repeat List.concat]. rewrite events_bind, IH. reflexivity. }
  destruct n as [|k]; [lia|].
  repeat split; try reflexivity; try lia.
  - apply Hfin.
  - apply Hev.
Qed.

(** C9: in any state other than [STATE_ACTIVATED] and
    [STATE_MOTION_CHECK], pirPoll changes nothing and calls nobody. *)
Theorem C9_pirPoll_other_state (STATE_ACTIVATED STATE_DEACTIVATED TINT32 sensorID state : Z)
  (w : world) :
  state <> STATE_ACTIVATED -> state <> STATE_MOTION_CHECK ->
  pirPoll STATE_ACTIVATED STATE_DEACTIVATED TINT32 sensorID state w = (tt, w, []).
Proof.
  intros H1 H2. unfold pirPoll.
  apply Z.eqb_neq in H1, H2. rewrite H1, H2. reflexivity.
Qed.

(** C10: in [STATE_ACTIVATED] with the template unregistered, the
    scheduler and trace calls of pirPoll are the same whatever the
    outcome of registerNotefileTemplate; when an allocation fails,
    registerNotefileTemplate returns false and nothing is sent, yet the
    completion transition Activated -> MotionCheck is still requested. *)
Theorem C10_registration_failure_ignored
  (STATE_ACTIVATED STATE_DEACTIVATED TINT32 sensorID : Z) (w : world) :
  templateRegistered w = false ->
  filter is_sched_or_trace
    (events (pirPoll STATE_ACTIVATED STATE_DEACTIVATED TINT32 sensorID STATE_ACTIVATED) w)
  = [EvSchedSetCompletionState sensorID STATE_ACTIVATED STATE_MOTION_CHECK;
     EvTraceLn "pir: template registration request"]
  /\ (first_two_ok (allocOutcomes w) = false ->
      result (registerNotefileTemplate TINT32) w = false
      /\ sends (events (pirPoll STATE_ACTIVATED STATE_DEACTIVATED TINT32 sensorID
                          STATE_ACTIVATED) w) = []).
Proof.
  intros Htr.
  destruct w as [tr me ser dl nv ss outs h]; cbn in Htr; subst tr.
  unfold pirPoll, events, result. rewrite Z.eqb_refl.
  destruct outs as [|[|] [|[|] outs]]; split; intros;
    try discriminate; try split; reflexivity.
Qed.

(** C4 (as amended): pirPoll's transition function.  In [STATE_ACTIVATED]
    with the template unregistered it runs registerNotefileTemplate, then
    requests the completion transition to [STATE_MOTION_CHECK] and stops;
    registered, it does exactly what it does in [STATE_MOTION_CHECK].  In
    [STATE_MOTION_CHECK] with a zero counter it only requests deactivation;
    otherwise it runs addNote and requests re-invocation in
    [STATE_MOTION_CHECK].  registerNotefileTemplate and addNote each send
    their single request when both allocations succeed, and nothing
    otherwise. *)
Theorem C4_pirPoll_transitions
  (STATE_ACTIVATED STATE_DEACTIVATED TINT32 sensorID : Z) (w : world) :
  STATE_ACTIVATED <> STATE_MOTION_CHECK ->
  pirPoll STATE_ACTIVATED STATE_DEACTIVATED TINT32 sensorID STATE_ACTIVATED w
  = (if templateRegistered w
     then pirPoll STATE_ACTIVATED STATE_DEACTIVATED TINT32 sensorID STATE_MOTION_CHECK w
     else (tt, final (registerNotefileTemplate TINT32) w,
           events (registerNotefileTemplate TINT32) w
           ++ [EvSchedSetCompletionState sensorID STATE_ACTIVATED STATE_MOTION_CHECK;
               EvTraceLn "pir: template registration request"]))
  /\ pirPoll STATE_ACTIVATED STATE_DEACTIVATED TINT32 sensorID STATE_MOTION_CHECK w
     = (if motionEvents w =? 0
        then (tt, w, [EvSchedSetState sensorID STATE_DEACTIVATED "pir: completed"])
        else (tt, final addNote w,
              EvTraceValueLn "pir: " (motionEvents w) " motion events sensed"
              :: events addNote w
              ++ [EvSchedSetCompletionState sensorID STATE_MOTION_CHECK STATE_MOTION_CHECK;
                  EvTraceLn "pir: note queued"]))
  /\ sends (events (registerNotefileTemplate TINT32) w)
     = (if first_two_ok (allocOutcomes w)
        then [EvSend (nextHandle w)
                [("req", JString "note.template"); ("id", JNumber REQUESTID_TEMPLATE);
                 ("file", JString SENSORDATA_NOTEFILE);
                 ("body", JObject [("count", JNumber TINT32)])] true]
        else [])
  /\ sends (events addNote w)
     = (if first_two_ok (allocOutcomes w)
        then [EvSend (nextHandle w)
                [("req", JString "note.add"); ("file", JString SENSORDATA_NOTEFILE);
                 ("body", JObject [("count", JNumber (motionEvents w))])] false]
        else []).
Proof.
  intros Hact.
  assert (Hmc : (STATE_MOTION_CHECK =? STATE_ACTIVATED) = false).
  { apply Z.eqb_neq. congruence. }
  destruct w as [tr me ser dl nv ss outs h].
  unfold pirPoll. rewrite !Z.eqb_refl, Hmc. cbn [templateRegistered motionEvents].
  destruct tr, outs as [|[|] [|[|] outs]]; cbn;
    destruct (me =? 0); repeat split; reflexivity.
Qed.

(** C4 as stated fails: in [STATE_ACTIVATED] with the template unregistered
    and the request allocation failing, pirPoll sends no registration
    request, but still requests the transition to [STATE_MOTION_CHECK]. *)
Lemma C4_counterexample :
  let w := set_alloc [false] 0 w_example in
  templateRegistered w = false
  /\ sends (events (pirPoll (-2) (-3) 14 1 (-2)) w) = []
  /\ In (EvSchedSetCompletionState 1 (-2) STATE_MOTION_CHECK)
        (events (pirPoll (-2) (-3) 14 1 (-2)) w).
Proof. vm_compute. split; [reflexivity|]. split; [reflexivity|]. left; reflexivity. Qed.

(** C3 (as amended): without preemption, a successful addNote reports
    exactly the counter value N it starts from and leaves the counter at
    0.  The read ([count = motionEvents]) and the reset
    ([motionEvents = 0]) are two statements: if pirISR runs between them,
    the report still carries N and the counter still ends at 0, so that
    interrupt's increment is absorbed by the reset. *)
Theorem C3_addNote_report
  (STATE_DEACTIVATED PIR_DIRECT_LINK_Pin PIR_DIRECT_LINK_IT_PRIORITY sensorID pins : Z)
  (w : world) :
  first_two_ok (allocOutcomes w) = true ->
  sent_counts (events addNote w) = [motionEvents w]
  /\ motionEvents (final addNote w) = 0
  /\ sent_counts (events (addNote_preempted
        (pirISR STATE_DEACTIVATED PIR_DIRECT_LINK_Pin PIR_DIRECT_LINK_IT_PRIORITY
           sensorID pins)) w) = [motionEvents w]
  /\ motionEvents (final (addNote_preempted
        (pirISR STATE_DEACTIVATED PIR_DIRECT_LINK_Pin PIR_DIRECT_LINK_IT_PRIORITY
           sensorID pins)) w) = 0.
Proof.
  intros Hok.
  destruct w as [tr me ser dl nv ss outs h].
  unfold addNote, addNote_preempted, pirISR, resetInterrupt. unfold_run.
  destruct outs as [|[|] [|[|] outs]]; try discriminate; cbn;
    destruct (Z.land pins PIR_DIRECT_LINK_Pin =? 0); cbn;
    try destruct (ss =? STATE_DEACTIVATED); repeat split.
Qed.

(** C3 as stated fails: with five pending events, an interrupt on the wake
    line that preempts addNote between the read and the reset counts a
    sixth event; the report says 5 and the counter ends at 0, so the value
    zeroed (6) is not the value sent (5). *)
Lemma C3_counterexample :
  let isr := pirISR (-3) 64 7 1 64 in
  motionEvents w_example = 5
  /\ motionEvents (final isr w_example) = 6
  /\ sent_counts (events (addNote_preempted isr) w_example) = [5]
  /\ motionEvents (final (addNote_preempted isr) w_example) = 0.
Proof. vm_compute. repeat split. Qed.

(** C5 (as amended): pirISR does nothing unless the wake-line bit is set
    in [pins]; with it set, it increments the [uint32_t] counter (modulo
    2^32), re-arms the interrupt through resetInterrupt, and requests an
    immediate activation into [STATE_MOTION_CHECK] exactly when the
    scheduler reports [STATE_DEACTIVATED].  n such calls add n modulo
    2^32, which is exactly n while the total stays below 2^32. *)
Theorem C5_pirISR
  (STATE_DEACTIVATED PIR_DIRECT_LINK_Pin PIR_DIRECT_LINK_IT_PRIORITY sensorID pins : Z)
  (w : world) :
  let isr := pirISR STATE_DEACTIVATED PIR_DIRECT_LINK_Pin PIR_DIRECT_LINK_IT_PRIORITY
               sensorID pins in
  (Z.land pins PIR_DIRECT_LINK_Pin = 0 -> isr w = (tt, w, []))
  /\ (Z.land pins PIR_DIRECT_LINK_Pin <> 0 ->
      final isr w = final (resetInterrupt PIR_DIRECT_LINK_IT_PRIORITY)
                      (set_motionEvents (u32 (motionEvents w + 1)) w)
      /\ events isr w = events (resetInterrupt PIR_DIRECT_LINK_IT_PRIORITY) w
                        ++ (if schedState w =? STATE_DEACTIVATED
                            then [EvSchedActivateNowFromISR sensorID true STATE_MOTION_CHECK]
                            else []))
  /\ (Z.land pins PIR_DIRECT_LINK_Pin <> 0 -> 0 <= motionEvents w < 2 ^ 32 ->
      forall n : nat,
        motionEvents (final (repeatM n isr) w) = u32 (motionEvents w + Z.of_nat n)
        /\ (motionEvents w + Z.of_nat n < 2 ^ 32 ->
            motionEvents (final (repeatM n isr) w) = motionEvents w + Z.of_nat n)).
Proof.
  intros isr.
  assert (Hstep : forall w', Z.land pins PIR_DIRECT_LINK_Pin <> 0 ->
            final isr w' = final (resetInterrupt PIR_DIRECT_LINK_IT_PRIORITY)
                             (set_motionEvents (u32 (motionEvents w' + 1)) w')
            /\ events isr w' = events (resetInterrupt PIR_DIRECT_LINK_IT_PRIORITY) w'
                  ++ (if schedState w' =? STATE_DEACTIVATED
                      then [EvSchedActivateNowFromISR sensorID true STATE_MOTION_CHECK]
                      else [])).
  { intros w' Hp. apply Z.eqb_neq in Hp.
    subst isr. unfold pirISR, final, events. rewrite Hp. cbn.
    destruct (schedState w' =? STATE_DEACTIVATED); split; reflexivity. }
  split; [|split].
  - intros Hp. subst isr. unfold pirISR. rewrite Hp. reflexivity.
  - apply Hstep.
  - intros Hp Hr n.
    assert (Hn : forall k w', 0 <= motionEvents w' < 2 ^ 32 ->
              motionEvents (final (repeatM k isr) w') = u32 (motionEvents w' + Z.of_nat k)).
    { induction k as [|k IH]; intros w' Hw'.
      - cbn. unfold u32. rewrite Z.add_0_r, Z.mod_small; lia.
      - change (repeatM (S k) isr) with (isr;; repeatM k isr).
        rewrite final_bind, IH.
        + destruct (Hstep w' Hp) as [-> _]. rewrite resetInterrupt_motionEvents.
          cbn [motionEvents set_motionEvents].
          unfold u32. rewrite Zplus_mod_idemp_l. f_equal. lia.
        + destruct (Hstep w' Hp) as [-> _]. rewrite resetInterrupt_motionEvents.
          cbn [motionEvents set_motionEvents]. unfold u32.
          apply Z.mod_pos_bound. lia. }
    split.
    + apply Hn, Hr.
    + intros Hlt. rewrite Hn by exact Hr. unfold u32.
      apply Z.mod_small. lia.
Qed.

(** C5 as stated fails: at the largest [uint32_t] value one wake-line
    interrupt takes the counter to 0, not to 2^32. *)
Lemma C5_counterexample :
  let w := set_motionEvents (2 ^ 32 - 1) w_example in
  motionEvents (final (pirISR (-3) 64 7 1 64) w) = 0
  /\ motionEvents w + 1 <> 0.
Proof. vm_compute. split; [reflexivity | discriminate]. Qed.

(** C6: pirResponse leaves the world unchanged on a timeout, on a response
    with a non-empty error string (whatever its ID), and on an error-free
    response with any ID other than [REQUESTID_TEMPLATE] (an absent ID
    reads as 0); on an error-free response with that ID it sets
    [templateRegistered], its only change.  Along any sequence of
    responses the flag never falls, and it rises exactly once when it
    starts false and some response acknowledges the template, never
    otherwise. *)
Theorem C6_pirResponse (sensorID : Z) :
  (forall w, final (pirResponse sensorID None) w = w)
  /\ (forall r w, c_str_nonempty (JGetString r "err") = true ->
        final (pirResponse sensorID (Some r)) w = w)
  /\ (forall r w, c_str_nonempty (JGetString r "err") = false ->
        JGetInt r "id" = REQUESTID_TEMPLATE ->
        final (pirResponse sensorID (Some r)) w = set_templateRegistered true w)
  /\ (forall r w, c_str_nonempty (JGetString r "err") = false ->
        JGetInt r "id" <> REQUESTID_TEMPLATE ->
        final (pirResponse sensorID (Some r)) w = w)
  /\ (forall rs w,
        falls (templateRegistered w) (flag_history sensorID rs w) = O
        /\ rises (templateRegistered w) (flag_history sensorID rs w)
           = (if negb (templateRegistered w) && existsb response_registers rs
              then 1 else 0)%nat).
Proof.
  split; [reflexivity|].
  split; [intros r w He; rewrite pirResponse_final; unfold response_registers;
          rewrite He; reflexivity|].
  split; [intros r w He Hid; rewrite pirResponse_final; unfold response_registers;
          rewrite He, Hid; reflexivity|].
  split; [intros r w He Hid; rewrite pirResponse_final; unfold response_registers;
          rewrite He; apply Z.eqb_neq in Hid; rewrite Hid; reflexivity|].
  induction rs as [|r rs IH]; intros w.
  { cbn. rewrite andb_false_r. split; reflexivity. }
  cbn [flag_history existsb]. rewrite pirResponse_final.
  destruct (templateRegistered w) eqn:Htr, (response_registers r) eqn:Hr;
    cbn [rises falls negb andb orb].
  - specialize (IH (set_templateRegistered true w)). cbn in IH |- *.
    destruct IH as [-> ->]. split; reflexivity.
  - specialize (IH w). rewrite Htr in IH |- *. cbn in IH |- *.
    destruct IH as [-> ->]. split; reflexivity.
  - specialize (IH (set_templateRegistered true w)). cbn in IH |- *.
    destruct IH as [-> ->]. split; reflexivity.
  - specialize (IH w). rewrite Htr in IH |- *. cbn in IH |- *. exact IH.
Qed.

(** C7 (as amended): when an allocation fails, registerNotefileTemplate
    and addNote send nothing, release the request if it was allocated
    (nothing else is left allocated), and change neither the motion
    counter nor the template flag; registerNotefileTemplate returns
    false, addNote returns nothing ([void]). *)
Theorem C7_allocation_failure (TINT32 : Z) (w : world) :
  first_two_ok (allocOutcomes w) = false ->
  result (registerNotefileTemplate TINT32) w = false
  /\ sends (events (registerNotefileTemplate TINT32) w) = []
  /\ sends (events addNote w) = []
  /\ (events (registerNotefileTemplate TINT32) w = []
      \/ events (registerNotefileTemplate TINT32) w
         = [EvAlloc (nextHandle w); EvDelete (nextHandle w)])
  /\ (events addNote w = []
      \/ events addNote w = [EvAlloc (nextHandle w); EvDelete (nextHandle w)])
  /\ motionEvents (final (registerNotefileTemplate TINT32) w) = motionEvents w
  /\ templateRegistered (final (registerNotefileTemplate TINT32) w) = templateRegistered w
  /\ motionEvents (final addNote w) = motionEvents w
  /\ templateRegistered (final addNote w) = templateRegistered w.
Proof.
  intros Hfail.
  destruct w as [tr me ser dl nv ss outs h].
  unfold registerNotefileTemplate, addNote, addNote_preempted. unfold_run.
  destruct outs as [|[|] [|[|] outs]]; try discriminate; cbn;
    repeat split; try (left; reflexivity); try (right; reflexivity).
Qed.

(** C7 as stated fails for addNote: it returns the same (void) result
    whether its allocation failed and nothing was sent, or it succeeded
    and sent the report; no failure reaches its caller. *)
Lemma C7_counterexample :
  let w_fail := set_alloc [false] 0 w_example in
  result addNote w_fail = result addNote w_example
  /\ sends (events addNote w_fail) = []
  /\ sends (events addNote w_example) <> [].
Proof. vm_compute. split; [reflexivity|]. split; [reflexivity | discriminate]. Qed.

(** ** Witnesses: the theorems with hypotheses, applied at concrete inputs *)

Lemma C3_witness :
  first_two_ok (allocOutcomes w_example) = true
  /\ sent_counts (events addNote w_example) = [motionEvents w_example].
Proof.
  split; [reflexivity|].
  exact (proj1 (C3_addNote_report (-3) 64 7 1 64 w_example eq_refl)).
Defined.

Lemma C4_witness :
  (-2) <> STATE_MOTION_CHECK
  /\ pirPoll (-2) (-3) 14 1 STATE_MOTION_CHECK w_example
     = (if motionEvents w_example =? 0
        then (tt, w_example, [EvSchedSetState 1 (-3) "pir: completed"])
        else (tt, final addNote w_example,
              EvTraceValueLn "pir: " (motionEvents w_example) " motion events sensed"
              :: events addNote w_example
              ++ [EvSchedSetCompletionState 1 STATE_MOTION_CHECK STATE_MOTION_CHECK;
                  EvTraceLn "pir: note queued"])).
Proof.
  assert (H : (-2) <> STATE_MOTION_CHECK) by (unfold STATE_MOTION_CHECK; lia).
  split; [exact H|].
  exact (proj1 (proj2 (C4_pirPoll_transitions (-2) (-3) 14 1 w_example H))).
Defined.

Lemma C5_witness :
  Z.land 64 64 <> 0 /\ 0 <= motionEvents w_example < 2 ^ 32
  /\ motionEvents (final (repeatM 3 (pirISR (-3) 64 7 1 64)) w_example)
     = u32 (motionEvents w_example + Z.of_nat 3).
Proof.
  assert (Hp : Z.land 64 64 <> 0) by (vm_compute; discriminate).
  assert (Hr : 0 <= motionEvents w_example < 2 ^ 32) by (cbn; lia).
  split; [exact Hp|]. split; [exact Hr|].
  exact (proj1 (proj2 (proj2 (C5_pirISR (-3) 64 7 1 64 w_example)) Hp Hr 3%nat)).
Defined.

Lemma C6_witness :
  c_str_nonempty (JGetString [("id", JNumber 1)] "err") = false
  /\ JGetInt [("id", JNumber 1)] "id" = REQUESTID_TEMPLATE
  /\ final (pirResponse 1 (Some [("id", JNumber 1)])) w_example
     = set_templateRegistered true w_example.
Proof.
  split; [reflexivity|]. split; [reflexivity|].
  exact (proj1 (proj2 (proj2 (C6_pirResponse 1))) [("id", JNumber 1)] w_example
           eq_refl eq_refl).
Defined.

Lemma C7_witness :
  first_two_ok (allocOutcomes (set_alloc [true; false] 0 w_example)) = false
  /\ result (registerNotefileTemplate 14) (set_alloc [true; false] 0 w_example) = false.
Proof.
  split; [reflexivity|].
  exact (proj1 (C7_allocation_failure 14 (set_alloc [true; false] 0 w_example) eq_refl)).
Defined.

Lemma C8_witness :
  (1 <= 3)%nat
  /\ final (repeatM 3 (resetInterrupt 7)) w_example = final (resetInterrupt 7) w_example.
Proof.
  assert (H : (1 <= 3)%nat) by lia.
  split; [exact H|].
  exact (proj1 (C8_resetInterrupt_idempotent 7 3 w_example H)).
Defined.

Lemma C9_witness :
  5 <> (-2) /\ 5 <> STATE_MOTION_CHECK
  /\ pirPoll (-2) (-3) 14 1 5 w_example = (tt, w_example, []).
Proof.
  assert (H1 : 5 <> (-2)) by lia.
  assert (H2 : 5 <> STATE_MOTION_CHECK) by (unfold STATE_MOTION_CHECK; lia).
  split; [exact H1|]. split; [exact H2|].
  exact (C9_pirPoll_other_state (-2) (-3) 14 1 5 w_example H1 H2).
Defined.

Lemma C10_witness :
  templateRegistered (set_alloc [false] 0 w_example) = false
  /\ first_two_ok (allocOutcomes (set_alloc [false] 0 w_example)) = false
  /\ sends (events (pirPoll (-2) (-3) 14 1 (-2)) (set_alloc [false] 0 w_example)) = [].
Proof.
  split; [reflexivity|]. split; [reflexivity|].
  exact (proj2 (proj2 (C10_registration_failure_ignored (-2) (-3) 14 1
                         (set_alloc [false] 0 w_example) eq_refl) eq_refl)).
Defined.

(** ** Further properties of the driver *)

Lemma busy_wait_app (l1 l2 : list event) :
  busy_wait (l1 ++ l2) = busy_wait l1 + busy_wait l2.
Proof.
  induction l1 as [|e l1 IH]; [reflexivity|].
  unfold busy_wait in *; cbn [app fold_right]. rewrite IH. destruct e; lia.
Qed.

Lemma busy_wait_bits (cfg : Z) (l : list Z) :
  busy_wait (flat_map (sendBit_events cfg) l) = 106 * Z.of_nat (List.length l).
Proof.
  induction l as [|i l IH]; [reflexivity|].
  cbn [flat_map]. rewrite busy_wait_app, IH.
  change (busy_wait (sendBit_events cfg i)) with 106.
  cbn [List.length]. lia.
Qed.

Lemma sendConfiguration_events (cfg : Z) (w : world) :
  events (sendConfiguration cfg) w
  = EvDelayUs 750 :: flat_map (sendBit_events cfg) (map Z.of_nat (rev (seq 0 25)))
    ++ [EvWritePin PIR_SERIAL_IN_Pin GPIO_PIN_RESET; EvDelayUs 750].
Proof.
  unfold sendConfiguration. rewrite !events_bind, sendLoop_events. reflexivity.
Qed.

Lemma sampled_bits_bits (cfg : Z) (l : list Z) rest :
  sampled_bits (flat_map (fun i => [(GPIO_PIN_RESET, 5); (GPIO_PIN_SET, 1);
                                    (bit_level cfg i, 100)]) l ++ rest)
  = map (Z.testbit cfg) l ++ sampled_bits rest.
Proof.
  induction l as [|i l IH]; [reflexivity|].
  cbn. rewrite IH. unfold bit_level. destruct (Z.testbit cfg i); reflexivity.
Qed.

Lemma shift_in_acc (bs : list bool) (acc : Z) :
  fold_left (fun acc b => 2 * acc + Z.b2z b) bs acc
  = acc * 2 ^ Z.of_nat (List.length bs) + shift_in bs.
Proof.
  unfold shift_in. revert acc.
  induction bs as [|b bs IH]; intros acc; [cbn; lia|].
  cbn [fold_left List.length]. rewrite IH, (IH (2 * 0 + Z.b2z b)).
  rewrite Nat2Z.inj_succ, Z.pow_succ_r by lia. ring.
Qed.

Lemma shift_in_testbits (cfg : Z) (n : nat) :
  shift_in (map (Z.testbit cfg) (map Z.of_nat (rev (seq 0 n))))
  = cfg mod 2 ^ Z.of_nat n.
Proof.
  induction n as [|n IH].
  - cbn. symmetry. apply Z.mod_1_r.
  - rewrite seq_S, rev_app_distr. cbn [rev app map].
    unfold shift_in at 1. cbn [fold_left].
    rewrite shift_in_acc, IH, !length_map, length_rev, length_seq.
    rewrite Nat2Z.inj_succ, Z.pow_succ_r by lia.
    rewrite (Z.mul_comm 2 (2 ^ Z.of_nat n)), Z.rem_mul_r
      by (try apply Z.pow_nonzero; lia).
    rewrite <- Z.testbit_spec' by lia. cbn [Nat.add]. ring.
Qed.

(** X1: decoding the serial line as the sensor does, shifting in the
    level of every 100us hold most significant bit first, gives back the
    low 25 bits of any register value; in pirInit it gives back the
    assembled configuration register. *)
Theorem X1_transmission_roundtrip :
  (forall (cfg : Z) (w : world),
      shift_in (sampled_bits (serial_pairs GPIO_PIN_RESET
                                (events (sendConfiguration cfg) w)))
      = cfg mod 2 ^ 25
      /\ List.length (sampled_bits (serial_pairs GPIO_PIN_RESET
                                 (events (sendConfiguration cfg) w))) = 25%nat)
  /\ (forall (prio sensorID : Z) (w : world) (v : GPIO_PinState),
      shift_in (sampled_bits (serial_pairs v (events (pirInit prio sensorID) w)))
      = configurationRegister).
Proof.
  split.
  - intros cfg w. rewrite sendConfiguration_events. cbn [app serial_pairs].
    rewrite serial_pairs_bits. cbn [serial_pairs]. cbn [sampled_bits Z.eqb].
    rewrite sampled_bits_bits. cbn [sampled_bits Z.eqb]. rewrite app_nil_r.
    split.
    + apply (shift_in_testbits cfg 25).
    + reflexivity.
  - intros prio sensorID w v. vm_compute. reflexivity.
Qed.

(** X2: the configuration transmission busy-waits 4150us for any
    register value (750 + 25 * (5 + 1 + 100) + 750); pirInit as a whole,
    with its final resetInterrupt, busy-waits 4400us. *)
Theorem X2_transmission_duration :
  (forall (cfg : Z) (w : world), busy_wait (events (sendConfiguration cfg) w) = 4150)
  /\ (forall (prio sensorID : Z) (w : world),
      busy_wait (events (pirInit prio sensorID) w) = 4400).
Proof.
  split.
  - intros cfg w. rewrite sendConfiguration_events.
    change (EvDelayUs 750 :: ?l) with ([EvDelayUs 750] ++ l).
    rewrite !busy_wait_app, busy_wait_bits. reflexivity.
  - intros prio sensorID w. vm_compute. reflexivity.
Qed.

Lemma sent_counts_app (l1 l2 : list event) :
  sent_counts (l1 ++ l2) = sent_counts l1 ++ sent_counts l2.
Proof.
  induction l1 as [|e l1 IH]; [reflexivity|].
  destruct e; cbn [app sent_counts]; rewrite ?IH; try reflexivity.
  repeat match goal with
         | |- context [match ?x with _ => _ end] => destruct x
         end; rewrite ?IH; reflexivity.
Qed.

Lemma reported_app (l1 l2 : list event) :
  reported (l1 ++ l2) = reported l1 + reported l2.
Proof.
  unfold reported. rewrite sent_counts_app, fold_right_app.
  induction (sent_counts l1) as [|n l IH]; cbn; [reflexivity|]. rewrite IH. lia.
Qed.

(** What a single entry point does to the counter: it stays a [uint32_t],
    and every wake-line interrupt it takes is either still pending or
    in the count of a report it sent. *)
Lemma run_op_counter
  (STATE_ACTIVATED STATE_DEACTIVATED PIR_DIRECT_LINK_Pin PIR_DIRECT_LINK_IT_PRIORITY
   TINT32 sensorID : Z) (op : driver_op) (w : world) :
  0 <= motionEvents w < 2 ^ 32 ->
  let m := run_op STATE_ACTIVATED STATE_DEACTIVATED PIR_DIRECT_LINK_Pin
             PIR_DIRECT_LINK_IT_PRIORITY TINT32 sensorID op in
  0 <= motionEvents (final m w) < 2 ^ 32
  /\ 0 <= reported (events m w)
  /\ (motionEvents w + isr_counted PIR_DIRECT_LINK_Pin op < 2 ^ 32 ->
      reported (events m w) + motionEvents (final m w)
      = motionEvents w + isr_counted PIR_DIRECT_LINK_Pin op).
Proof.
  intros Hr m. subst m.
  destruct w as [tr me ser dl nv ss outs h]; cbn [motionEvents] in Hr |- *.
  destruct op as [|pins|st|rsp]; cbn [run_op isr_counted].
  - unfold pirInit, sendConfiguration, resetInterrupt. unfold_run. cbn.
    repeat split; lia.
  - unfold pirISR, resetInterrupt. unfold_run.
    destruct (Z.land pins PIR_DIRECT_LINK_Pin =? 0); cbn.
    + repeat split; lia.
    + pose proof (Z.mod_pos_bound (me + 1) (2 ^ 32) ltac:(lia)).
      destruct (ss =? STATE_DEACTIVATED); cbn; unfold u32;
        repeat split; try lia;
        intros Hb; unfold reported; cbn; rewrite Z.mod_small; lia.
  - unfold pirPoll, registerNotefileTemplate, addNote, addNote_preempted. unfold_run.
    destruct (st =? STATE_ACTIVATED), (st =? STATE_MOTION_CHECK), tr,
      outs as [|[|] [|[|] outs]]; cbn;
      try destruct (me =? 0) eqn:Hz; cbn;
      unfold reported; cbn; repeat split; lia.
  - unfold pirResponse. unfold_run.
    destruct rsp as [r|]; cbn; [|repeat split; lia].
    destruct (c_str_nonempty (JGetString r "err")); cbn;
      [|destruct (JGetInt r "id" =? REQUESTID_TEMPLATE); cbn];
      repeat split; lia.
Qed.

Ltac well_formed_sends :=
  repeat (apply Forall_cons || apply Forall_nil); cbn;
  try exact I;
  try (split; [reflexivity|];
       first [left; repeat split; reflexivity | right; repeat split; reflexivity]).

(** What a single entry point sends, allocates and does to the template
    flag, from any world. *)
Lemma run_op_shape
  (STATE_ACTIVATED STATE_DEACTIVATED PIR_DIRECT_LINK_Pin PIR_DIRECT_LINK_IT_PRIORITY
   TINT32 sensorID : Z) (op : driver_op) (w : world) :
  let m := run_op STATE_ACTIVATED STATE_DEACTIVATED PIR_DIRECT_LINK_Pin
             PIR_DIRECT_LINK_IT_PRIORITY TINT32 sensorID op in
  Forall send_well_formed (events m w)
  /\ allocs (events m w) = (2 * sent (events m w) + deletes (events m w))%nat
  /\ (is_response op = false -> templateRegistered (final m w) = templateRegistered w)
  /\ (templateRegistered w = true -> templateRegistered (final m w) = true).
Proof.
  intros m. subst m.
  destruct w as [tr me ser dl nv ss outs h]; cbn [templateRegistered].
  unfold allocs, deletes, sent, sends.
  destruct op as [|pins|st|rsp]; cbn [run_op is_response].
  - unfold pirInit, sendConfiguration, resetInterrupt. unfold_run. cbn.
    (split; [well_formed_sends|]); repeat split; intros;
      solve [reflexivity | assumption].
  - unfold pirISR, resetInterrupt. unfold_run.
    destruct (Z.land pins PIR_DIRECT_LINK_Pin =? 0); cbn;
      try destruct (ss =? STATE_DEACTIVATED); cbn;
      (split; [well_formed_sends|]); repeat split; intros;
      solve [reflexivity | assumption].
  - unfold pirPoll, registerNotefileTemplate, addNote, addNote_preempted. unfold_run.
    destruct (st =? STATE_ACTIVATED), (st =? STATE_MOTION_CHECK), tr,
      outs as [|[|] [|[|] outs]]; cbn;
      try destruct (me =? 0); cbn;
      (split; [well_formed_sends|]); repeat split; intros;
      solve [reflexivity | assumption].
  - unfold pirResponse. unfold_run.
    destruct rsp as [r|]; cbn;
      [destruct (c_str_nonempty (JGetString r "err")); cbn;
       [|destruct (JGetInt r "id" =? REQUESTID_TEMPLATE); cbn]|];
      (split; [well_formed_sends|]); repeat split; intros;
      solve [reflexivity | assumption | discriminate].
Qed.

Lemma run_ops_cons
  (STATE_ACTIVATED STATE_DEACTIVATED PIR_DIRECT_LINK_Pin PIR_DIRECT_LINK_IT_PRIORITY
   TINT32 sensorID : Z) (op : driver_op) (ops : list driver_op) (w : world) :
  let m := run_op STATE_ACTIVATED STATE_DEACTIVATED PIR_DIRECT_LINK_Pin
             PIR_DIRECT_LINK_IT_PRIORITY TINT32 sensorID op in
  let ms := run_ops STATE_ACTIVATED STATE_DEACTIVATED PIR_DIRECT_LINK_Pin
              PIR_DIRECT_LINK_IT_PRIORITY TINT32 sensorID ops in
  events (run_ops STATE_ACTIVATED STATE_DEACTIVATED PIR_DIRECT_LINK_Pin
            PIR_DIRECT_LINK_IT_PRIORITY TINT32 sensorID (op :: ops)) w
  = events m w ++ events ms (final m w)
  /\ final (run_ops STATE_ACTIVATED STATE_DEACTIVATED PIR_DIRECT_LINK_Pin
              PIR_DIRECT_LINK_IT_PRIORITY TINT32 sensorID (op :: ops)) w
     = final ms (final m w).
Proof.
  intros m ms. cbn [run_ops]. rewrite events_bind, final_bind. split; reflexivity.
Qed.

Lemma isr_counted_bounds (PIR_DIRECT_LINK_Pin : Z) (op : driver_op) :
  0 <= isr_counted PIR_DIRECT_LINK_Pin op <= 1.
Proof.
  destruct op; cbn; try lia. destruct (_ =? 0); lia.
Qed.

Lemma isr_count_nonneg (PIR_DIRECT_LINK_Pin : Z) (ops : list driver_op) :
  0 <= isr_count PIR_DIRECT_LINK_Pin ops.
Proof.
  induction ops as [|op ops IH]; cbn; [lia|].
  pose proof (isr_counted_bounds PIR_DIRECT_LINK_Pin op). lia.
Qed.

Lemma sends_app (l1 l2 : list event) : sends (l1 ++ l2) = sends l1 ++ sends l2.
Proof. unfold sends. apply filter_app. Qed.

(** X3: along any sequence of calls into the driver in which no
    interrupt preempts addNote, every wake-line interrupt is counted
    exactly once: the counts of the reports sent plus the counter left
    pending equal the starting counter plus the number of wake-line
    interrupts, as long as that total stays below 2^32. *)
Theorem X3_counter_conservation
  (STATE_ACTIVATED STATE_DEACTIVATED PIR_DIRECT_LINK_Pin PIR_DIRECT_LINK_IT_PRIORITY
   TINT32 sensorID : Z) (ops : list driver_op) (w : world) :
  0 <= motionEvents w ->
  motionEvents w + isr_count PIR_DIRECT_LINK_Pin ops < 2 ^ 32 ->
  let m := run_ops STATE_ACTIVATED STATE_DEACTIVATED PIR_DIRECT_LINK_Pin
             PIR_DIRECT_LINK_IT_PRIORITY TINT32 sensorID ops in
  reported (events m w) + motionEvents (final m w)
  = motionEvents w + isr_count PIR_DIRECT_LINK_Pin ops.
Proof.
  revert w. induction ops as [|op ops IH]; intros w H0 Hlt m; subst m.
  - cbn. unfold reported. cbn. lia.
  - destruct (run_ops_cons STATE_ACTIVATED STATE_DEACTIVATED PIR_DIRECT_LINK_Pin
                PIR_DIRECT_LINK_IT_PRIORITY TINT32 sensorID op ops w) as [He Hf].
    cbn zeta in He, Hf. rewrite He, Hf, reported_app.
    cbn [isr_count] in Hlt |- *.
    pose proof (isr_counted_bounds PIR_DIRECT_LINK_Pin op).
    pose proof (isr_count_nonneg PIR_DIRECT_LINK_Pin ops).
    destruct (run_op_counter STATE_ACTIVATED STATE_DEACTIVATED PIR_DIRECT_LINK_Pin
                PIR_DIRECT_LINK_IT_PRIORITY TINT32 sensorID op w ltac:(lia))
      as [Hr1 [Hrep Hcons]].
    specialize (Hcons ltac:(lia)).
    rewrite <- Z.add_assoc, IH by lia. lia.
Qed.


(** X5: along any sequence of calls, every message the driver sends is
    one of its two kinds: a template registration to "*#motion.qo" that
    expects a response and carries ID [REQUESTID_TEMPLATE], or a report to
    "*#motion.qo" that expects none and carries no ID. *)
Theorem X5_sends_well_formed
  (STATE_ACTIVATED STATE_DEACTIVATED PIR_DIRECT_LINK_Pin PIR_DIRECT_LINK_IT_PRIORITY
   TINT32 sensorID : Z) (ops : list driver_op) (w : world) :
  Forall send_well_formed
    (events (run_ops STATE_ACTIVATED STATE_DEACTIVATED PIR_DIRECT_LINK_Pin
               PIR_DIRECT_LINK_IT_PRIORITY TINT32 sensorID ops) w).
Proof.
  revert w. induction ops as [|op ops IH]; intros w; [constructor|].
  destruct (run_ops_cons STATE_ACTIVATED STATE_DEACTIVATED PIR_DIRECT_LINK_Pin
              PIR_DIRECT_LINK_IT_PRIORITY TINT32 sensorID op ops w) as [He _].
  cbn zeta in He. rewrite He. apply Forall_app. split; [|apply IH].
  apply (run_op_shape STATE_ACTIVATED STATE_DEACTIVATED PIR_DIRECT_LINK_Pin
           PIR_DIRECT_LINK_IT_PRIORITY TINT32 sensorID op w).
Qed.

(** X6: along any sequence of calls, every object the driver allocates
    from the messaging layer is given back: each sent request accounts for
    two allocations (the request and its body, which the request owns),
    each [JDelete] for one. *)
Theorem X6_allocations_released
  (STATE_ACTIVATED STATE_DEACTIVATED PIR_DIRECT_LINK_Pin PIR_DIRECT_LINK_IT_PRIORITY
   TINT32 sensorID : Z) (ops : list driver_op) (w : world) :
  let es := events (run_ops STATE_ACTIVATED STATE_DEACTIVATED PIR_DIRECT_LINK_Pin
                      PIR_DIRECT_LINK_IT_PRIORITY TINT32 sensorID ops) w in
  allocs es = (2 * sent es + deletes es)%nat.
Proof.
  revert w. induction ops as [|op ops IH]; intros w es; subst es; [reflexivity|].
  destruct (run_ops_cons STATE_ACTIVATED STATE_DEACTIVATED PIR_DIRECT_LINK_Pin
              PIR_DIRECT_LINK_IT_PRIORITY TINT32 sensorID op ops w) as [He _].
  cbn zeta in He. rewrite He.
  destruct (run_op_shape STATE_ACTIVATED STATE_DEACTIVATED PIR_DIRECT_LINK_Pin
              PIR_DIRECT_LINK_IT_PRIORITY TINT32 sensorID op w) as [_ [Hb _]].
  specialize (IH (final (run_op STATE_ACTIVATED STATE_DEACTIVATED PIR_DIRECT_LINK_Pin
                           PIR_DIRECT_LINK_IT_PRIORITY TINT32 sensorID op) w)).
  cbn zeta in IH. unfold allocs, deletes, sent in *.
  rewrite sends_app, !filter_app, !length_app. lia.
Qed.

(** X7: only gateway responses change the template flag: along a sequence
    of calls with no response among them, it ends as it started. *)
Theorem X7_flag_only_set_by_responses
  (STATE_ACTIVATED STATE_DEACTIVATED PIR_DIRECT_LINK_Pin PIR_DIRECT_LINK_IT_PRIORITY
   TINT32 sensorID : Z) (ops : list driver_op) (w : world) :
  existsb is_response ops = false ->
  templateRegistered (final (run_ops STATE_ACTIVATED STATE_DEACTIVATED PIR_DIRECT_LINK_Pin
                               PIR_DIRECT_LINK_IT_PRIORITY TINT32 sensorID ops) w)
  = templateRegistered w.
Proof.
  revert w. induction ops as [|op ops IH]; intros w Hn; [reflexivity|].
  cbn [existsb] in Hn. apply orb_false_iff in Hn as [Hop Hn].
  destruct (run_ops_cons STATE_ACTIVATED STATE_DEACTIVATED PIR_DIRECT_LINK_Pin
              PIR_DIRECT_LINK_IT_PRIORITY TINT32 sensorID op ops w) as [_ Hf].
  cbn zeta in Hf. rewrite Hf, IH by exact Hn.
  apply (run_op_shape STATE_ACTIVATED STATE_DEACTIVATED PIR_DIRECT_LINK_Pin
           PIR_DIRECT_LINK_IT_PRIORITY TINT32 sensorID op w), Hop.
Qed.

(** X8: once registered, the template stays registered along any sequence
    of calls: nothing in the driver clears the flag. *)
Theorem X8_flag_never_cleared
  (STATE_ACTIVATED STATE_DEACTIVATED PIR_DIRECT_LINK_Pin PIR_DIRECT_LINK_IT_PRIORITY
   TINT32 sensorID : Z) (ops : list driver_op) (w : world) :
  templateRegistered w = true ->
  templateRegistered (final (run_ops STATE_ACTIVATED STATE_DEACTIVATED PIR_DIRECT_LINK_Pin
                               PIR_DIRECT_LINK_IT_PRIORITY TINT32 sensorID ops) w)
  = true.
Proof.
  revert w. induction ops as [|op ops IH]; intros w Ht; [exact Ht|].
  destruct (run_ops_cons STATE_ACTIVATED STATE_DEACTIVATED PIR_DIRECT_LINK_Pin
              PIR_DIRECT_LINK_IT_PRIORITY TINT32 sensorID op ops w) as [_ Hf].
  cbn zeta in Hf. rewrite Hf. apply IH.
  apply (run_op_shape STATE_ACTIVATED STATE_DEACTIVATED PIR_DIRECT_LINK_Pin
           PIR_DIRECT_LINK_IT_PRIORITY TINT32 sensorID op w), Ht.
Qed.

(** ** Scenarios of a poll *)

Lemma bind_gets {A B} (f : world -> A) (k : A -> M B) (w : world) :
  bind (gets f) k w = k (f w) w.
Proof.
  unfold bind, gets. destruct (k (f w) w) as [[b w2] e2]. reflexivity.
Qed.

(** A poll in [STATE_MOTION_CHECK] with pending events and both
    allocations succeeding reports them all and clears the counter. *)
Lemma poll_report (STATE_ACTIVATED STATE_DEACTIVATED TINT32 sensorID : Z) (w : world) :
  STATE_ACTIVATED <> STATE_MOTION_CHECK ->
  motionEvents w <> 0 -> first_two_ok (allocOutcomes w) = true ->
  let poll := pirPoll STATE_ACTIVATED STATE_DEACTIVATED TINT32 sensorID
                STATE_MOTION_CHECK in
  sent_counts (events poll w) = [motionEvents w]
  /\ motionEvents (final poll w) = 0
  /\ In (EvSchedSetCompletionState sensorID STATE_MOTION_CHECK STATE_MOTION_CHECK)
        (events poll w).
Proof.
  intros Hact Hme Hok poll. subst poll.
  assert (Hmc : (STATE_MOTION_CHECK =? STATE_ACTIVATED) = false)
    by (apply Z.eqb_neq; congruence).
  apply Z.eqb_neq in Hme.
  destruct w as [tr me ser dl nv ss outs h]; cbn in Hme, Hok |- *.
  unfold pirPoll. rewrite Hmc, Z.eqb_refl.
  unfold addNote, addNote_preempted. unfold_run. cbn. rewrite Hme.
  destruct outs as [|[|] [|[|] outs]]; try discriminate; cbn;
    repeat split; repeat (first [left; reflexivity | right]).
Qed.

(** The same poll with an allocation failing sends nothing, keeps the
    counter and the remaining allocation outcomes, and still asks to be
    run again in [STATE_MOTION_CHECK]. *)
Lemma poll_report_failed (STATE_ACTIVATED STATE_DEACTIVATED TINT32 sensorID : Z)
  (w : world) :
  STATE_ACTIVATED <> STATE_MOTION_CHECK ->
  motionEvents w <> 0 -> first_two_ok (allocOutcomes w) = false ->
  let poll := pirPoll STATE_ACTIVATED STATE_DEACTIVATED TINT32 sensorID
                STATE_MOTION_CHECK in
  sends (events poll w) = []
  /\ motionEvents (final poll w) = motionEvents w
  /\ In (EvSchedSetCompletionState sensorID STATE_MOTION_CHECK STATE_MOTION_CHECK)
        (events poll w).
Proof.
  intros Hact Hme Hok poll. subst poll.
  assert (Hmc : (STATE_MOTION_CHECK =? STATE_ACTIVATED) = false)
    by (apply Z.eqb_neq; congruence).
  apply Z.eqb_neq in Hme.
  destruct w as [tr me ser dl nv ss outs h]; cbn in Hme, Hok |- *.
  unfold pirPoll. rewrite Hmc, Z.eqb_refl.
  unfold addNote, addNote_preempted. unfold_run. cbn. rewrite Hme.
  destruct outs as [|[|] [|[|] outs]]; try discriminate; cbn;
    repeat split; repeat (first [left; reflexivity | right]).
Qed.

(** A poll in [STATE_MOTION_CHECK] with nothing pending only asks to be
    deactivated. *)
Lemma poll_idle (STATE_ACTIVATED STATE_DEACTIVATED TINT32 sensorID : Z) (w : world) :
  STATE_ACTIVATED <> STATE_MOTION_CHECK -> motionEvents w = 0 ->
  pirPoll STATE_ACTIVATED STATE_DEACTIVATED TINT32 sensorID STATE_MOTION_CHECK w
  = (tt, w, [EvSchedSetState sensorID STATE_DEACTIVATED "pir: completed"]).
Proof.
  intros Hact Hme.
  assert (Hmc : (STATE_MOTION_CHECK =? STATE_ACTIVATED) = false)
    by (apply Z.eqb_neq; congruence).
  unfold pirPoll. rewrite Hmc, Z.eqb_refl. cbv zeta iota.
  rewrite bind_gets, Hme. reflexivity.
Qed.

(** X9: the registration handshake.  A poll in [STATE_ACTIVATED] with the
    template unregistered and both allocations succeeding sends one
    request that expects a response; once the gateway answers it without
    error, echoing the request's ID, the template is registered, no motion
    event has been consumed, and from then on a poll in [STATE_ACTIVATED]
    is a poll in [STATE_MOTION_CHECK]. *)
Theorem X9_registration_roundtrip
  (STATE_ACTIVATED STATE_DEACTIVATED TINT32 sensorID : Z) (w : world) :
  STATE_ACTIVATED <> STATE_MOTION_CHECK ->
  templateRegistered w = false ->
  first_two_ok (allocOutcomes w) = true ->
  let poll := pirPoll STATE_ACTIVATED STATE_DEACTIVATED TINT32 sensorID in
  exists h req,
    sends (events (poll STATE_ACTIVATED) w) = [EvSend h req true]
    /\ let w2 := final (pirResponse sensorID (Some [("id", JNumber (JGetInt req "id"))]))
                   (final (poll STATE_ACTIVATED) w) in
       templateRegistered w2 = true
       /\ motionEvents w2 = motionEvents w
       /\ poll STATE_ACTIVATED w2 = poll STATE_MOTION_CHECK w2.
Proof.
  intros Hact Htr Hok poll.
  assert (Hmc : (STATE_MOTION_CHECK =? STATE_ACTIVATED) = false)
    by (apply Z.eqb_neq; congruence).
  assert (Hreg : forall w', templateRegistered w' = true ->
            poll STATE_ACTIVATED w' = poll STATE_MOTION_CHECK w').
  { intros w' Ht. subst poll. unfold pirPoll. cbv zeta.
    rewrite !Z.eqb_refl, Hmc. cbv iota.
    rewrite (bind_gets templateRegistered), Ht. reflexivity. }
  destruct w as [tr me ser dl nv ss outs h]; cbn in Htr, Hok; subst tr.
  destruct outs as [|[|] [|[|] outs]]; try discriminate;
    do 2 eexists;
    (split; [subst poll; unfold pirPoll, registerNotefileTemplate; rewrite Z.eqb_refl;
             unfold_run; cbn; reflexivity|]);
    cbv zeta; (split; [|split; [|apply Hreg]]);
    subst poll; unfold pirPoll, registerNotefileTemplate, pirResponse;
    unfold_run; rewrite !Z.eqb_refl; cbn; reflexivity.
Qed.

(** X10: a poll in [STATE_MOTION_CHECK] that reports successfully leaves
    nothing pending: the poll it schedules next only asks to be
    deactivated, and changes nothing. *)
Theorem X10_report_then_deactivate
  (STATE_ACTIVATED STATE_DEACTIVATED TINT32 sensorID : Z) (w : world) :
  STATE_ACTIVATED <> STATE_MOTION_CHECK ->
  motionEvents w <> 0 -> first_two_ok (allocOutcomes w) = true ->
  let poll := pirPoll STATE_ACTIVATED STATE_DEACTIVATED TINT32 sensorID
                STATE_MOTION_CHECK in
  let w1 := final poll w in
  sent_counts (events poll w) = [motionEvents w]
  /\ In (EvSchedSetCompletionState sensorID STATE_MOTION_CHECK STATE_MOTION_CHECK)
        (events poll w)
  /\ poll w1 = (tt, w1, [EvSchedSetState sensorID STATE_DEACTIVATED "pir: completed"]).
Proof.
  intros Hact Hme Hok poll w1.
  destruct (poll_report STATE_ACTIVATED STATE_DEACTIVATED TINT32 sensorID w Hact Hme Hok)
    as [Hc [H0 Hin]].
  split; [exact Hc|]. split; [exact Hin|].
  apply poll_idle; assumption.
Qed.

(** X11: a report lost to an allocation failure is not lost: the poll
    keeps the counter and asks to run again in [STATE_MOTION_CHECK], and
    the next poll whose allocations succeed reports the same count (plus
    nothing, when no interrupt came in between). *)
Theorem X11_failed_report_retried
  (STATE_ACTIVATED STATE_DEACTIVATED TINT32 sensorID : Z) (w : world) :
  STATE_ACTIVATED <> STATE_MOTION_CHECK ->
  motionEvents w <> 0 -> first_two_ok (allocOutcomes w) = false ->
  let poll := pirPoll STATE_ACTIVATED STATE_DEACTIVATED TINT32 sensorID
                STATE_MOTION_CHECK in
  let w1 := final poll w in
  sends (events poll w) = []
  /\ motionEvents w1 = motionEvents w
  /\ In (EvSchedSetCompletionState sensorID STATE_MOTION_CHECK STATE_MOTION_CHECK)
        (events poll w)
  /\ (first_two_ok (allocOutcomes w1) = true ->
      sent_counts (events poll w1) = [motionEvents w]
      /\ motionEvents (final poll w1) = 0).
Proof.
  intros Hact Hme Hok poll w1.
  destruct (poll_report_failed STATE_ACTIVATED STATE_DEACTIVATED TINT32 sensorID w
              Hact Hme Hok) as [Hs [Hk Hin]].
  split; [exact Hs|]. split; [exact Hk|]. split; [exact Hin|].
  intros Hok1.
  assert (Hme1 : motionEvents w1 <> 0) by (subst w1 poll; rewrite Hk; exact Hme).
  destruct (poll_report STATE_ACTIVATED STATE_DEACTIVATED TINT32 sensorID w1
              Hact Hme1 Hok1) as [Hc [H0 _]].
  subst w1 poll. rewrite Hk in Hc. split; assumption.
Qed.

(** X12: an interrupt on the wake line while the sensor is deactivated
    asks the scheduler to run it now in [STATE_MOTION_CHECK], and that
    poll reports the event with the ones already pending. *)
Theorem X12_wake_then_report
  (STATE_ACTIVATED STATE_DEACTIVATED PIR_DIRECT_LINK_Pin PIR_DIRECT_LINK_IT_PRIORITY
   TINT32 sensorID pins : Z) (w : world) :
  STATE_ACTIVATED <> STATE_MOTION_CHECK ->
  Z.land pins PIR_DIRECT_LINK_Pin <> 0 ->
  schedState w = STATE_DEACTIVATED ->
  0 <= motionEvents w < 2 ^ 32 - 1 ->
  first_two_ok (allocOutcomes w) = true ->
  let isr := pirISR STATE_DEACTIVATED PIR_DIRECT_LINK_Pin PIR_DIRECT_LINK_IT_PRIORITY
               sensorID pins in
  let poll := pirPoll STATE_ACTIVATED STATE_DEACTIVATED TINT32 sensorID
                STATE_MOTION_CHECK in
  let w1 := final isr w in
  In (EvSchedActivateNowFromISR sensorID true STATE_MOTION_CHECK) (events isr w)
  /\ sent_counts (events poll w1) = [motionEvents w + 1]
  /\ motionEvents (final poll w1) = 0.
Proof.
  intros Hact Hp Hs Hr Hok isr poll w1.
  assert (Hw1 : motionEvents w1 = motionEvents w + 1
                /\ allocOutcomes w1 = allocOutcomes w
                /\ In (EvSchedActivateNowFromISR sensorID true STATE_MOTION_CHECK)
                      (events isr w)).
  { subst w1 isr. apply Z.eqb_neq in Hp.
    destruct w as [tr me ser dl nv ss outs h]; cbn in Hs, Hr |- *. subst ss.
    unfold pirISR, resetInterrupt. unfold_run. rewrite Hp. cbn.
    rewrite Z.eqb_refl. cbn. unfold u32. rewrite Z.mod_small by lia.
    repeat split; repeat (first [left; reflexivity | right]). }
  destruct Hw1 as [Hme1 [Hout1 Hin]].
  split; [exact Hin|].
  rewrite <- Hme1.
  destruct (poll_report STATE_ACTIVATED STATE_DEACTIVATED TINT32 sensorID w1 Hact
              ltac:(lia) ltac:(rewrite Hout1; exact Hok)) as [Hc [H0 _]].
  split; assumption.
Qed.

(** X13: pirInit's net effect on the hardware: the serial line is left an
    output driven low, the wake line a pulled-down rising-edge interrupt
    input (its latch low), its interrupt enabled at the given priority;
    nothing else in the world changes, nothing is sent, and it returns
    true. *)
Theorem X13_pirInit_final_state (PIR_DIRECT_LINK_IT_PRIORITY sensorID : Z) (w : world) :
  let w1 := final (pirInit PIR_DIRECT_LINK_IT_PRIORITY sensorID) w in
  result (pirInit PIR_DIRECT_LINK_IT_PRIORITY sensorID) w = true
  /\ gpio_serial_in w1
     = mkPin (Some {| Pin := PIR_SERIAL_IN_Pin; Mode := GPIO_MODE_OUTPUT_PP;
                      Pull := GPIO_NOPULL; Speed := GPIO_SPEED_FREQ_LOW |})
         GPIO_PIN_RESET
  /\ gpio_direct_link w1 = mkPin (Some direct_link_irq_init) GPIO_PIN_RESET
  /\ nvic_direct_link w1 = mkNvic (Some (PIR_DIRECT_LINK_IT_PRIORITY, 0)) true
  /\ set_pin PIR_SERIAL_IN_Pin (gpio_serial_in w)
       (set_pin PIR_DIRECT_LINK (gpio_direct_link w)
          (set_nvic (nvic_direct_link w) w1)) = w
  /\ sends (events (pirInit PIR_DIRECT_LINK_IT_PRIORITY sensorID) w) = [].
Proof.
  intros w1. subst w1.
  destruct w as [tr me ser dl nv ss outs h].
  unfold pirInit, sendConfiguration, resetInterrupt. unfold_run. cbn.
  repeat split; reflexivity.
Qed.

(** X14: reports do not wait for the template: a poll in
    [STATE_MOTION_CHECK] does the same whether or not the template is
    registered, and leaves the flag as it found it. *)
Theorem X14_report_ignores_registration
  (STATE_ACTIVATED STATE_DEACTIVATED TINT32 sensorID : Z) (b : bool) (w : world) :
  STATE_ACTIVATED <> STATE_MOTION_CHECK ->
  let poll := pirPoll STATE_ACTIVATED STATE_DEACTIVATED TINT32 sensorID
                STATE_MOTION_CHECK in
  events poll (set_templateRegistered b w) = events poll w
  /\ final poll (set_templateRegistered b w) = set_templateRegistered b (final poll w).
Proof.
  intros Hact poll. subst poll.
  assert (Hmc : (STATE_MOTION_CHECK =? STATE_ACTIVATED) = false)
    by (apply Z.eqb_neq; congruence).
  destruct w as [tr me ser dl nv ss outs h].
  unfold pirPoll. rewrite Hmc, Z.eqb_refl.
  unfold addNote, addNote_preempted. unfold_run. cbn.
  destruct (me =? 0), outs as [|[|] [|[|] outs]]; cbn; split; reflexivity.
Qed.

(** ** Witnesses of the further properties, at concrete inputs *)

Lemma X3_witness :
  0 <= motionEvents w_example
  /\ motionEvents w_example + isr_count 64 ops_example < 2 ^ 32
  /\ reported (events (run_ops (-2) (-3) 64 7 14 1 ops_example) w_example)
     + motionEvents (final (run_ops (-2) (-3) 64 7 14 1 ops_example) w_example)
     = motionEvents w_example + isr_count 64 ops_example.
Proof.
  assert (H0 : 0 <= motionEvents w_example) by (vm_compute; easy).
  assert (H1 : motionEvents w_example + isr_count 64 ops_example < 2 ^ 32)
    by (vm_compute; easy).
  split; [exact H0|]. split; [exact H1|].
  exact (X3_counter_conservation (-2) (-3) 64 7 14 1 ops_example w_example H0 H1).
Defined.


Lemma X7_witness :
  existsb is_response ops_no_response = false
  /\ templateRegistered
       (final (run_ops (-2) (-3) 64 7 14 1 ops_no_response) w_example)
     = templateRegistered w_example.
Proof.
  assert (H0 : existsb is_response ops_no_response = false) by reflexivity.
  split; [exact H0|].
  exact (X7_flag_only_set_by_responses (-2) (-3) 64 7 14 1 ops_no_response w_example H0).
Defined.

Lemma X8_witness :
  templateRegistered (set_templateRegistered true w_example) = true
  /\ templateRegistered
       (final (run_ops (-2) (-3) 64 7 14 1 ops_example)
          (set_templateRegistered true w_example)) = true.
Proof.
  assert (H0 : templateRegistered (set_templateRegistered true w_example) = true)
    by reflexivity.
  split; [exact H0|].
  exact (X8_flag_never_cleared (-2) (-3) 64 7 14 1 ops_example
           (set_templateRegistered true w_example) H0).
Defined.

Lemma X9_witness :
  -2 <> STATE_MOTION_CHECK
  /\ templateRegistered w_example = false
  /\ first_two_ok (allocOutcomes w_example) = true
  /\ exists h req,
       sends (events (pirPoll (-2) (-3) 14 1 (-2)) w_example) = [EvSend h req true]
       /\ let w2 := final (pirResponse 1 (Some [("id", JNumber (JGetInt req "id"))]))
                      (final (pirPoll (-2) (-3) 14 1 (-2)) w_example) in
          templateRegistered w2 = true
          /\ motionEvents w2 = motionEvents w_example
          /\ pirPoll (-2) (-3) 14 1 (-2) w2 = pirPoll (-2) (-3) 14 1 STATE_MOTION_CHECK w2.
Proof.
  assert (H0 : -2 <> STATE_MOTION_CHECK) by (vm_compute; easy).
  assert (H1 : templateRegistered w_example = false) by reflexivity.
  assert (H2 : first_two_ok (allocOutcomes w_example) = true) by reflexivity.
  split; [exact H0|]. split; [exact H1|]. split; [exact H2|].
  exact (X9_registration_roundtrip (-2) (-3) 14 1 w_example H0 H1 H2).
Defined.

Lemma X10_witness :
  -2 <> STATE_MOTION_CHECK
  /\ motionEvents w_example <> 0
  /\ first_two_ok (allocOutcomes w_example) = true
  /\ let poll := pirPoll (-2) (-3) 14 1 STATE_MOTION_CHECK in
     let w1 := final poll w_example in
     sent_counts (events poll w_example) = [motionEvents w_example]
     /\ In (EvSchedSetCompletionState 1 STATE_MOTION_CHECK STATE_MOTION_CHECK)
           (events poll w_example)
     /\ poll w1 = (tt, w1, [EvSchedSetState 1 (-3) "pir: completed"]).
Proof.
  assert (H0 : -2 <> STATE_MOTION_CHECK) by (vm_compute; easy).
  assert (H1 : motionEvents w_example <> 0) by (vm_compute; easy).
  assert (H2 : first_two_ok (allocOutcomes w_example) = true) by reflexivity.
  split; [exact H0|]. split; [exact H1|]. split; [exact H2|].
  exact (X10_report_then_deactivate (-2) (-3) 14 1 w_example H0 H1 H2).
Defined.

Lemma X11_witness :
  let w := set_alloc [false] 0 w_example in
  -2 <> STATE_MOTION_CHECK
  /\ motionEvents w <> 0
  /\ first_two_ok (allocOutcomes w) = false
  /\ let poll := pirPoll (-2) (-3) 14 1 STATE_MOTION_CHECK in
     let w1 := final poll w in
     sends (events poll w) = []
     /\ motionEvents w1 = motionEvents w
     /\ In (EvSchedSetCompletionState 1 STATE_MOTION_CHECK STATE_MOTION_CHECK)
           (events poll w)
     /\ (first_two_ok (allocOutcomes w1) = true ->
         sent_counts (events poll w1) = [motionEvents w]
         /\ motionEvents (final poll w1) = 0).
Proof.
  intros w.
  assert (H0 : -2 <> STATE_MOTION_CHECK) by (vm_compute; easy).
  assert (H1 : motionEvents w <> 0) by (vm_compute; easy).
  assert (H2 : first_two_ok (allocOutcomes w) = false) by reflexivity.
  split; [exact H0|]. split; [exact H1|]. split; [exact H2|].
  exact (X11_failed_report_retried (-2) (-3) 14 1 w H0 H1 H2).
Defined.

Lemma X12_witness :
  -2 <> STATE_MOTION_CHECK
  /\ Z.land 64 64 <> 0
  /\ schedState w_example = -3
  /\ 0 <= motionEvents w_example < 2 ^ 32 - 1
  /\ first_two_ok (allocOutcomes w_example) = true
  /\ let isr := pirISR (-3) 64 7 1 64 in
     let poll := pirPoll (-2) (-3) 14 1 STATE_MOTION_CHECK in
     let w1 := final isr w_example in
     In (EvSchedActivateNowFromISR 1 true STATE_MOTION_CHECK) (events isr w_example)
     /\ sent_counts (events poll w1) = [motionEvents w_example + 1]
     /\ motionEvents (final poll w1) = 0.
Proof.
  assert (H0 : -2 <> STATE_MOTION_CHECK) by (vm_compute; easy).
  assert (H1 : Z.land 64 64 <> 0) by (vm_compute; easy).
  assert (H2 : schedState w_example = -3) by reflexivity.
  assert (H3 : 0 <= motionEvents w_example < 2 ^ 32 - 1) by (vm_compute; split; easy).
  assert (H4 : first_two_ok (allocOutcomes w_example) = true) by reflexivity.
  split; [exact H0|]. split; [exact H1|]. split; [exact H2|].
  split; [exact H3|]. split; [exact H4|].
  exact (X12_wake_then_report (-2) (-3) 64 7 14 1 64 w_example H0 H1 H2 H3 H4).
Defined.

Lemma X14_witness :
  -2 <> STATE_MOTION_CHECK
  /\ let poll := pirPoll (-2) (-3) 14 1 STATE_MOTION_CHECK in
     events poll (set_templateRegistered true w_example) = events poll w_example
     /\ final poll (set_templateRegistered true w_example)
        = set_templateRegistered true (final poll w_example).
Proof.
  assert (H0 : -2 <> STATE_MOTION_CHECK) by (vm_compute; easy).
  split; [exact H0|].
  exact (X14_report_ignores_registration (-2) (-3) 14 1 true w_example H0).
Defined.
